(** * fusi: a reversible web application router

    A shallow embedding of [fusi/route.py] and [fusi/router.py] and the
    properties of the route registry: qualification of names and patterns,
    registration with validation, lookup by name and by pattern with an
    optional fallback, and the memoisation of pattern lookups. *)

From stdpp Require Import base strings list gmap.
From Equations Require Import Equations.

Open Scope string_scope.
Open Scope list_scope.

(** ** Python values, exceptions and the dict *)

Module py.

(** The values a caller can pass.  Objects are compared by identity, which
    is their [oid].  [PyFunction] is the only callable value; [PyRoute] is a
    [Route] object. *)
#[warnings="-register-all"]
Inductive PyVal : Type :=
| PyNone
| PyBool (b : bool)
| PyInt (z : Z)
| PyStr (s : string)
| PyList (l : list PyVal)
| PyTuple (l : list PyVal)
| PyFunction (oid : nat)
| PyRoute (oid : nat).

Definition type_name (v : PyVal) : string :=
  match v with
  | PyNone => "NoneType"
  | PyBool _ => "bool"
  | PyInt _ => "int"
  | PyStr _ => "str"
  | PyList _ => "list"
  | PyTuple _ => "tuple"
  | PyFunction _ => "function"
  | PyRoute _ => "Route"
  end.

(** What [f"{type(v)}"] renders: the name of a builtin type, the qualified
    name of a class of the package. *)
Definition type_repr (v : PyVal) : string :=
  match v with
  | PyRoute _ => "<class 'fusi.route.Route'>"
  | _ => "<class '" +:+ type_name v +:+ "'>"
  end.

(** [isinstance(v, str)] *)
Definition is_str (v : PyVal) : bool :=
  match v with PyStr _ => true | _ => false end.

Definition callable (v : PyVal) : bool :=
  match v with PyFunction _ => true | _ => false end.

(** Truth value of a [str]: the empty string is false. *)
Definition str_truthy (s : string) : bool := negb (String.eqb s "").

(** Truth value of an [Optional[str]]: [None] and [""] are false. *)
Definition truthy (o : option string) : bool :=
  match o with
  | Some s => str_truthy s
  | None => false
  end.

(** [s.startswith(pre)] *)
Definition startswith (s pre : string) : bool := String.prefix pre s.

Definition ascii_upper (c : Ascii.ascii) : Ascii.ascii :=
  let n := Ascii.nat_of_ascii c in
  if (97 <=? n)%nat && (n <=? 122)%nat then Ascii.ascii_of_nat (n - 32) else c.

(** [s.upper()] for a [str] of ASCII characters, which is what a [string]
    stands for here.  (On other strings Python maps letters outside ASCII
    too, and iterates code points where a [string] has bytes.) *)
Fixpoint str_upper (s : string) : string :=
  match s with
  | EmptyString => EmptyString
  | String c s' => String (ascii_upper c) (str_upper s')
  end.

(** [list(s)] for a [str] of ASCII characters. *)
Fixpoint str_chars (s : string) : list string :=
  match s with
  | EmptyString => []
  | String c s' => String c EmptyString :: str_chars s'
  end.

Inductive PyExc : Type :=
| RouterError (msg : string)
| KeyError (key : string)
| TypeError (msg : string)
| AttributeError (msg : string).

Inductive Outcome (A : Type) : Type :=
| Return (a : A)
| Raise (e : PyExc).
Arguments Return {A} a.
Arguments Raise {A} e.

(** [iter(v)] *)
Definition iter (v : PyVal) : Outcome (list PyVal) :=
  match v with
  | PyList l | PyTuple l => Return l
  | PyStr s => Return (PyStr <$> str_chars s)
  | _ => Raise (TypeError ("'" +:+ type_name v +:+ "' object is not iterable"))
  end.

(** [v.upper()] *)
Definition upper (v : PyVal) : Outcome string :=
  match v with
  | PyStr s => Return (str_upper s)
  | _ => Raise (AttributeError
                  ("'" +:+ type_name v +:+ "' object has no attribute 'upper'"))
  end.

(** A dict with [str] keys keeps its items in insertion order. *)
Section dict.
Context {V : Type}.

Fixpoint dict_get (d : list (string * V)) (k : string) : option V :=
  match d with
  | [] => None
  | (k', v) :: d' => if decide (k' = k) then Some v else dict_get d' k
  end.

(** [k in d] *)
Definition dict_contains (k : string) (d : list (string * V)) : bool :=
  match dict_get d k with Some _ => true | None => false end.

(** [d[k]] *)
Definition dict_getitem (d : list (string * V)) (k : string) : Outcome V :=
  match dict_get d k with
  | Some v => Return v
  | None => Raise (KeyError k)
  end.

(** [d[k] = v]: a present key keeps its position, a new one goes last. *)
Fixpoint dict_setitem (k : string) (v : V) (d : list (string * V))
  : list (string * V) :=
  match d with
  | [] => [(k, v)]
  | (k', v') :: d' =>
      if decide (k' = k) then (k', v) :: d'
      else (k', v') :: dict_setitem k v d'
  end.

Definition dict_keys (d : list (string * V)) : list string := d.*1.
Definition dict_values (d : list (string * V)) : list V := d.*2.
End dict.

#[global] Instance outcome_ret : MRet Outcome := λ A a, Return a.
#[global] Instance outcome_bind : MBind Outcome := λ A B f o,
  match o with
  | Return a => f a
  | Raise e => Raise e
  end.

(** Statements that read and write a state [S] and may raise. *)
Definition St (S A : Type) : Type := S → Outcome A * S.

#[global] Instance st_ret {S} : MRet (St S) := λ A a s, (Return a, s).
#[global] Instance st_bind {S} : MBind (St S) := λ A B f m s,
  match m s with
  | (Return a, s') => f a s'
  | (Raise e, s') => (Raise e, s')
  end.

Definition raise {S A} (e : PyExc) : St S A := λ s, (Raise e, s).
Definition lift {S A} (o : Outcome A) : St S A := λ s, (o, s).

End py.
Import py.

(** ** functools.lru_cache *)

Module functools.

Section lru.
Context {K V : Type} `{EqDecision K}.

(** [lru_cache]'s default [maxsize]. *)
Definition maxsize : nat := 128.

(** Most recently used first. *)
Fixpoint cache_get (c : list (K * V)) (k : K) : option V :=
  match c with
  | [] => None
  | (k', v) :: c' => if decide (k' = k) then Some v else cache_get c' k
  end.

(** A hit makes the entry the most recent one. *)
Definition cache_hit (k : K) (v : V) (c : list (K * V)) : list (K * V) :=
  (k, v) :: filter (λ e, e.1 ≠ k) c.

(** A miss stores the result and drops the least recently used entry of a
    full cache. *)
Definition cache_miss (k : K) (v : V) (c : list (K * V)) : list (K * V) :=
  take maxsize ((k, v) :: c).

(** The wrapper [lru_cache] puts around [f]; [key] is built from the call's
    arguments.  A call that raises stores nothing. *)
Definition lru_cache {S} (get_cache : S → list (K * V))
    (set_cache : list (K * V) → S → S) (key : K) (f : St S V) : St S V :=
  λ s,
    match cache_get (get_cache s) key with
    | Some v => (Return v, set_cache (cache_hit key v (get_cache s)) s)
    | None =>
        match f s with
        | (Return v, s') =>
            (Return v, set_cache (cache_miss key v (get_cache s')) s')
        | (Raise e, s') => (Raise e, s')
        end
    end.
End lru.

End functools.

(** ** route.py *)

Module route.

Record Route : Type := {
  oid : nat;
  _name : string;
  _pattern : string;
  _handler : PyVal;
  _methods : gset string
}.

Fixpoint upper_each (items : list PyVal) : Outcome (list string) :=
  match items with
  | [] => Return []
  | i :: rest => token ← upper i; tokens ← upper_each rest; mret (token :: tokens)
  end.

(** [tuple(set(i.upper() for i in methods))]; the order of the tuple is that
    of a set's iteration, so the model keeps the set. *)
Definition normalize_methods (methods : PyVal) : Outcome (gset string) :=
  items ← iter methods;
  tokens ← upper_each items;
  mret (list_to_set tokens).

(** [Route.__init__] on the object with identity [oid]. *)
Definition __init__ (oid : nat) (name pattern : string)
    (handler methods : PyVal) : Outcome Route :=
  ms ← normalize_methods methods;
  mret {| oid := oid; _name := name; _pattern := pattern;
          _handler := handler; _methods := ms |}.

Definition name (self : Route) : string := _name self.
Definition pattern (self : Route) : string := _pattern self.
Definition handler (self : Route) : PyVal := _handler self.
Definition methods (self : Route) : gset string := _methods self.

(** The value a caller holds for a [Route] object. *)
Definition ref (self : Route) : PyVal := PyRoute (oid self).

(** [self == other]: [Route] does not define [__eq__], so this is identity. *)
Definition __eq__ (self : Route) (other : PyVal) : bool :=
  match other with
  | PyRoute oid' => bool_decide (oid self = oid')
  | _ => false
  end.

End route.

(** ** router.py *)

Module router.
Import route.

(** How a call of [match_pattern] with [self] and [pattern] passed
    positionally passes [fallback]. *)
Inductive FallbackArg : Type :=
| FbOmitted
| FbPositional (fallback : option string)
| FbKeyword (fallback : option string).

Definition fallback_value (a : FallbackArg) : option string :=
  match a with
  | FbOmitted => None
  | FbPositional fallback | FbKeyword fallback => fallback
  end.

#[global] Instance FallbackArg_eq_dec : EqDecision FallbackArg.
Proof. solve_decision. Defined.

(** With [pattern] passed by keyword: [fallback] omitted, or a keyword before
    or after it. *)
Inductive KeywordFallback : Type :=
| KfOmitted
| KfBefore (fallback : option string)
| KfAfter (fallback : option string).

#[global] Instance KeywordFallback_eq_dec : EqDecision KeywordFallback.
Proof. solve_decision. Defined.

(** The place of the keyword [fallback] among the keywords [self] and
    [pattern]. *)
Inductive Place : Type := First | Second | Third.

#[global] Instance Place_eq_dec : EqDecision Place.
Proof. solve_decision. Defined.

(** The ways to call [match_pattern(self, pattern, fallback=None)]:
    [r.match_pattern(p)], [r.match_pattern(p, fb)],
    [r.match_pattern(p, fallback=fb)]; [r.match_pattern(pattern=p)],
    [r.match_pattern(fallback=fb, pattern=p)],
    [r.match_pattern(pattern=p, fallback=fb)]; and, through the class, with
    every argument a keyword, [Router.match_pattern(self=r, pattern=p)] and
    the like, in any order.  ([Router.match_pattern(r, ...)] passes its
    arguments as [r.match_pattern(...)] does.) *)
Inductive CallForm : Type :=
| Positional (fallback : FallbackArg)
| PatternKeyword (fallback : KeywordFallback)
| AllKeywords (self_first : bool) (fallback : option (Place * option string)).

#[global] Instance CallForm_eq_dec : EqDecision CallForm.
Proof. solve_decision. Defined.

(** The value that the call binds to [fallback]. *)
Definition call_fallback (c : CallForm) : option string :=
  match c with
  | Positional a => fallback_value a
  | PatternKeyword KfOmitted => None
  | PatternKeyword (KfBefore fallback) | PatternKeyword (KfAfter fallback) =>
      fallback
  | AllKeywords _ None => None
  | AllKeywords _ (Some (_, fallback)) => fallback
  end.

Inductive Param : Type := PSelf | PPattern | PFallback.

Definition param_name (x : Param) : string :=
  match x with
  | PSelf => "self"
  | PPattern => "pattern"
  | PFallback => "fallback"
  end.

(** The parameters that the call passes positionally ([args]). *)
Definition positional (c : CallForm) : list Param :=
  match c with
  | Positional (FbPositional _) => [PSelf; PPattern; PFallback]
  | Positional _ => [PSelf; PPattern]
  | PatternKeyword _ => [PSelf]
  | AllKeywords _ _ => []
  end.

(** The parameters that the call passes by keyword, in the order of the
    call ([kwds]). *)
Definition keywords (c : CallForm) : list Param :=
  match c with
  | Positional (FbKeyword _) => [PFallback]
  | Positional _ => []
  | PatternKeyword KfOmitted => [PPattern]
  | PatternKeyword (KfBefore _) => [PFallback; PPattern]
  | PatternKeyword (KfAfter _) => [PPattern; PFallback]
  | AllKeywords self_first fallback =>
      let a := if self_first then PSelf else PPattern in
      let b := if self_first then PPattern else PSelf in
      match fallback with
      | None => [a; b]
      | Some (First, _) => [PFallback; a; b]
      | Some (Second, _) => [a; PFallback; b]
      | Some (Third, _) => [a; b; PFallback]
      end
  end.

(** An element of a key of [lru_cache]: an object (equal to itself only), a
    string, [None], or the mark that [lru_cache] puts before the keywords. *)
Inductive KeyItem : Type :=
| KObj (oid : nat)
| KStr (s : string)
| KNone
| KMark.

#[global] Instance KeyItem_eq_dec : EqDecision KeyItem.
Proof. solve_decision. Defined.

(** The key of a [match_pattern] call. *)
Definition CacheKey : Type := list KeyItem.

Definition key_value (self : nat) (pattern : string) (fallback : option string)
    (x : Param) : KeyItem :=
  match x with
  | PSelf => KObj self
  | PPattern => KStr pattern
  | PFallback => match fallback with Some s => KStr s | None => KNone end
  end.

(** [functools._make_key(args, kwds, typed=False)]: the positional arguments,
    then, if there are keywords, the mark and each keyword with its value. *)
Definition make_key (self : nat) (pattern : string) (c : CallForm) : CacheKey :=
  let value := key_value self pattern (call_fallback c) in
  (value <$> positional c) ++
  match keywords c with
  | [] => []
  | kwds => KMark :: (kwds ≫= λ x, [KStr (param_name x); value x])
  end.

(** What lives outside a [Router]: the allocator of object identities, and
    the one cache that [lru_cache] attaches to [Router.match_pattern], shared
    by every [Router]. *)
Record Interp : Type := {
  next_oid : nat;
  match_pattern_cache : list (CacheKey * option Route)
}.

Definition set_cache (c : list (CacheKey * option Route)) (i : Interp) : Interp :=
  {| next_oid := next_oid i; match_pattern_cache := c |}.

(** [object.__new__]: a fresh identity. *)
Definition alloc : St Interp nat :=
  λ i, (Return (next_oid i),
        {| next_oid := S (next_oid i);
           match_pattern_cache := match_pattern_cache i |}).

Record Router : Type := {
  oid : nat;
  _name : option string;
  _prefix : option string;
  _routes : list (string * Route)
}.

(** [Router(name, prefix)]: [if prefix and not prefix.startswith("/"): raise],
    then the three assignments on the new object. *)
Definition __init__ (name prefix : option string) : St Interp Router :=
  _ ← match prefix with
      | Some p =>
          if str_truthy p && negb (startswith p "/")
          then raise (RouterError
                 ("Parameter 'prefix' must start with a leading slash '/' not '"
                    +:+ p +:+ "'"))
          else mret ()
      | None => mret ()
      end;
  oid ← alloc;
  mret {| oid := oid; _name := name; _prefix := prefix; _routes := [] |}.

Definition name (self : Router) : option string := _name self.
Definition prefix (self : Router) : option string := _prefix self.

(** [list(self._routes.values())] *)
Definition routes (self : Router) : list Route := dict_values (_routes self).

Definition __contains__ (self : Router) (item : PyVal) : bool :=
  existsb (λ r, route.__eq__ r item) (routes self).

Definition __len__ (self : Router) : nat := length (_routes self).

Definition items (self : Router) : list (string * Route) := _routes self.

Definition fallback_depth (fallback : option string) : nat :=
  match fallback with Some _ => 1 | None => 0 end.

(** [Router.match_name]: [self._routes[name]], and on [KeyError] the same
    call on a true [fallback], with no fallback of its own. *)
Equations match_name (self : Router) (name : string) (fallback : option string)
  : Outcome (option Route) by wf (fallback_depth fallback) lt :=
  match_name self name fallback with dict_getitem (_routes self) name => {
    | Return route => Return (Some route);
    | Raise (KeyError _) with fallback => {
        | Some fb with str_truthy fb => {
            | true => match_name self fb None;
            | false => Return None };
        | None => Return None };
    | Raise e => Raise e }.

Definition is_pattern_match (self : Router) (pattern : string) (route : Route)
  : bool :=
  bool_decide (pattern = route.pattern route).

(** [for route in routes: if is_match(route): return route] *)
Fixpoint for_route_in (is_match : Route → bool) (routes : list Route)
  : option Route :=
  match routes with
  | [] => None
  | route :: rest =>
      if is_match route then Some route else for_route_in is_match rest
  end.

(** The function that [lru_cache] wraps. *)
Definition match_pattern_body (self : Router) (pattern : string)
    (fallback : option string) : Outcome (option Route) :=
  match for_route_in (is_pattern_match self pattern) (routes self) with
  | Some route => Return (Some route)
  | None =>
      match fallback with
      | Some fb => if str_truthy fb then match_name self fb None else Return None
      | None => Return None
      end
  end.

(** [Router.match_pattern], as decorated. *)
Definition match_pattern (self : Router) (pattern : string)
    (call : CallForm) : St Interp (option Route) :=
  functools.lru_cache match_pattern_cache set_cache
    (make_key (oid self) pattern call)
    (lift (match_pattern_body self pattern (call_fallback call))).

Definition prepare_route_name (self : Router) (name : string) : string :=
  match router.name self with
  | Some self_name =>
      if str_truthy self_name then self_name +:+ "." +:+ name else name
  | None => name
  end.

Definition check_route_name (self : Router) (name : string) : Outcome bool :=
  Return true.

Definition prepare_route_pattern (self : Router) (pattern : string) : string :=
  match router.prefix self with
  | Some self_prefix =>
      if str_truthy self_prefix then self_prefix +:+ pattern else pattern
  | None => pattern
  end.

Definition check_route_pattern (self : Router) (pattern : string)
  : Outcome bool :=
  if negb (startswith pattern "/")
  then Raise (RouterError "'pattern' must start with a '/'")
  else Return true.

Definition prepare_route_handler (self : Router) (handler : PyVal) : PyVal :=
  handler.

(** A method body runs on [self] and the interpreter state. *)
Definition get_self : St (Router * Interp) Router := λ s, (Return s.1, s).

Definition with_routes (self : Router) (d : list (string * Route)) : Router :=
  {| oid := oid self; _name := _name self; _prefix := _prefix self;
     _routes := d |}.

(** [self._routes[k] = v] *)
Definition setitem_routes (k : string) (v : Route) : St (Router * Interp) unit :=
  λ s, (Return (), (with_routes s.1 (dict_setitem k v (_routes s.1)), s.2)).

(** [Route(...)]: allocate, then initialise. *)
Definition new_Route (name pattern : string) (handler methods : PyVal)
  : St (Router * Interp) Route :=
  λ s, match alloc s.2 with
       | (Return oid, i) => (route.__init__ oid name pattern handler methods, (s.1, i))
       | (Raise e, i) => (Raise e, (s.1, i))
       end.

(** [Router.add_route]: the three [isinstance]/[callable] checks, the
    duplicate check on the prepared name, the hooks, the construction of the
    Route and, last, the assignment to [self._routes]. *)
Definition add_route (name pattern handler methods : PyVal)
  : St (Router * Interp) Route :=
  match name with
  | PyStr name_str =>
      match pattern with
      | PyStr pattern_str =>
          if negb (callable handler)
          then raise (RouterError
                 ("parameter 'handler' must be callable, not '"
                    +:+ type_repr handler +:+ "'"))
          else
            self ← get_self;
            let route_name := prepare_route_name self name_str in
            if dict_contains route_name (_routes self)
            then raise (RouterError
                   ("Route with name '" +:+ name_str +:+ "' already exists"))
            else
              let route_pattern := prepare_route_pattern self pattern_str in
              _ ← lift (check_route_name self route_name);
              _ ← lift (check_route_pattern self route_pattern);
              let route_handler := prepare_route_handler self handler in
              route ← new_Route route_name route_pattern route_handler methods;
              _ ← setitem_routes route_name route;
              mret route
      | _ =>
          raise (RouterError
            ("parameter 'pattern' must be a string, not '"
               +:+ type_repr pattern +:+ "'"))
      end
  | _ =>
      raise (RouterError
        ("parameter 'name' must be a string, not '" +:+ type_repr pattern +:+ "'"))
  end.

End router.

(** ** Programs: sequences of calls *)

Module world.
Import route router.

(** The routers a program has built, in the order it built them, and the
    interpreter state they share. *)
Record World : Type := {
  routers : list Router;
  interp : Interp
}.

Definition init : World :=
  {| routers := []; interp := {| next_oid := 0; match_pattern_cache := [] |} |}.

(** One statement of a program; [i] is the [i]-th router built.
    [CacheClear] is [Router.match_pattern.cache_clear()]. *)
Inductive Call : Type :=
| NewRouter (name prefix : option string)
| NewRoute (name pattern : string) (handler methods : PyVal)
| AddRoute (i : nat) (name pattern handler methods : PyVal)
| MatchPattern (i : nat) (pattern : string) (call : CallForm)
| MatchName (i : nat) (name : string) (fallback : option string)
| Contains (i : nat) (item : PyVal)
| Len (i : nat)
| Items (i : nat)
| CacheClear.

(** The state after a call, whether it returns or raises.  A [Route] that
    the caller builds itself takes an identity and goes to no router; the
    calls that only read leave the state as it is. *)
Definition exec (w : World) (c : Call) : World :=
  match c with
  | NewRouter name prefix =>
      match router.__init__ name prefix (interp w) with
      | (Return r, i') => {| routers := routers w ++ [r]; interp := i' |}
      | (Raise _, i') => {| routers := routers w; interp := i' |}
      end
  | NewRoute name pattern handler methods =>
      {| routers := routers w; interp := (alloc (interp w)).2 |}
  | AddRoute i name pattern handler methods =>
      match routers w !! i with
      | Some r =>
          let s' := (add_route name pattern handler methods (r, interp w)).2 in
          {| routers := <[i:=s'.1]> (routers w); interp := s'.2 |}
      | None => w
      end
  | MatchPattern i pattern call =>
      match routers w !! i with
      | Some r =>
          {| routers := routers w;
             interp := (match_pattern r pattern call (interp w)).2 |}
      | None => w
      end
  | MatchName _ _ _ | Contains _ _ | Len _ | Items _ => w
  | CacheClear => {| routers := routers w; interp := set_cache [] (interp w) |}
  end.

Definition run (calls : list Call) : World := foldl exec init calls.

Definition reachable (w : World) : Prop := ∃ calls, run calls = w.

End world.

Import route router world.

(** ** Well-formed states *)

(** The [Route] that [add_route] builds for accepted arguments. *)
Definition registered_route (self : Router) (i : Interp) (n p : string)
    (handler : PyVal) (ms : gset string) : Route :=
  {| route.oid := next_oid i;
     route._name := prepare_route_name self n;
     route._pattern := prepare_route_pattern self p;
     route._handler := handler;
     route._methods := ms |}.

(** A prefix that [Router.__init__] lets through. *)
Definition prefix_wf (prefix : option string) : Prop :=
  match prefix with
  | Some p => p = "" ∨ startswith p "/" = true
  | None => True
  end.

(** A router in a state whose next fresh identity is [n]. *)
Record router_wf (n : nat) (r : Router) : Prop := {
  wf_oid : (router.oid r < n)%nat;
  wf_keys : NoDup (dict_keys (_routes r));
  wf_names : Forall (λ kv, route.name kv.2 = kv.1) (_routes r);
  wf_route_oids : Forall (λ kv, (route.oid kv.2 < n)%nat) (_routes r);
  wf_prefix : prefix_wf (_prefix r)
}.

(** A cache entry is the result that the lookup had when the router owned
    only its first [n] routes. *)
Definition cache_entry_sound (rs : list Router) (e : CacheKey * option Route)
  : Prop :=
  ∃ k r n pattern call,
    rs !! k = Some r ∧ e.1 = make_key (router.oid r) pattern call ∧
    match_pattern_body (with_routes r (take n (_routes r))) pattern
      (call_fallback call) = Return e.2.

Record world_inv (w : World) : Prop := {
  inv_routers :
    ∀ k r, routers w !! k = Some r → router_wf (next_oid (interp w)) r;
  inv_oids :
    ∀ k k' r r', routers w !! k = Some r → routers w !! k' = Some r' →
      router.oid r = router.oid r' → k = k';
  inv_cache :
    Forall (cache_entry_sound (routers w)) (match_pattern_cache (interp w))
}.

(** No two routes owned by a router of [w] have the same name. *)
Definition names_unique (w : World) : Prop :=
  ∀ k self, routers w !! k = Some self → NoDup (route.name <$> routes self).

(** ** Values used in the examples *)

(** [lambda: "Hello world"] *)
Definition hello_world : PyVal := PyFunction 7.

(** [["GET"]] *)
Definition GET : PyVal := PyList [PyStr "GET"].

(** The state in which a first [Router] is built. *)
Definition boot : Interp := interp init.

(** [Router()] *)
Definition plain_router : Router :=
  {| router.oid := 0; _name := None; _prefix := None; _routes := [] |}.

Definition after_plain_router : Interp :=
  {| next_oid := 1; match_pattern_cache := [] |}.

(** [Router(name="rest_api", prefix="/v1")] *)
Definition api_router : Router :=
  {| router.oid := 0; _name := Some "rest_api"; _prefix := Some "/v1";
     _routes := [] |}.

Definition users_route : Route :=
  {| route.oid := 1; route._name := "rest_api.users";
     route._pattern := "/v1/users"; route._handler := hello_world;
     route._methods := {[ "GET" ]} |}.

(** [Router(name="")] *)
Definition unnamed_router : Router :=
  {| router.oid := 0; _name := Some ""; _prefix := None; _routes := [] |}.

Definition home_route : Route :=
  {| route.oid := 1; route._name := "home"; route._pattern := "/";
     route._handler := hello_world; route._methods := {[ "GET" ]} |}.

(** The route that [add_route(name="", pattern="/", ...)] registers on
    [Router()]. *)
Definition empty_name_route : Route :=
  {| route.oid := 1; route._name := ""; route._pattern := "/";
     route._handler := hello_world; route._methods := {[ "GET" ]} |}.

Definition empty_name_router : Router :=
  with_routes plain_router [("", empty_name_route)].

Definition after_first_route : Interp :=
  {| next_oid := 2; match_pattern_cache := [] |}.

(** The route that [add_route(name="a", pattern="/a", ...)] registers on
    [Router()]. *)
Definition a_route : Route :=
  {| route.oid := 1; route._name := "a"; route._pattern := "/a";
     route._handler := hello_world; route._methods := {[ "GET" ]} |}.

Definition a_router : Router := with_routes plain_router [("a", a_route)].

(** The state after
    [r = Router(); r.match_pattern("/a"); r.add_route("a", "/a", ...)]. *)
Definition stale_world : World :=
  {| routers := [a_router];
     interp := {| next_oid := 2;
                  match_pattern_cache :=
                    [(make_key 0 "/a" (Positional FbOmitted), None)] |} |}.

(** A second Route object with the fields of [a_route]. *)
Definition a_route_twin : Route :=
  {| route.oid := 2; route._name := "a"; route._pattern := "/a";
     route._handler := hello_world; route._methods := {[ "GET" ]} |}.

(** [Router(prefix="/v1")] *)
Definition v1_router : Router :=
  {| router.oid := 0; _name := None; _prefix := Some "/v1"; _routes := [] |}.


Definition v1users_route : Route :=
  {| route.oid := 1; route._name := "users"; route._pattern := "/v1users";
     route._handler := hello_world; route._methods := {[ "GET" ]} |}.

Definition empty_name_world : World :=
  {| routers := [empty_name_router]; interp := after_first_route |}.

(** ** More of the well-formed states *)

(** Among the values of [PyVal], the methods that [Route.__init__] can
    normalise: a list or a tuple of strings, or a string (whose characters are
    then the tokens).  Python has further iterables (sets, dicts, generators)
    and further values with [upper] (bytes), which [PyVal] has not. *)
Definition iterable_of_str (methods : PyVal) : Prop :=
  (∃ l, (methods = PyList l ∨ methods = PyTuple l) ∧
        Forall (λ v, is_str v = true) l) ∨
  (∃ s, methods = PyStr s).

(** The values of [PyVal] on which [iter] raises. *)
Definition not_iterable (v : PyVal) : bool :=
  match v with
  | PyNone | PyBool _ | PyInt _ | PyFunction _ | PyRoute _ => true
  | PyStr _ | PyList _ | PyTuple _ => false
  end.

(** What [add_route] has checked of a Route that [self] owns. *)
Record route_wf (self : Router) (rt : Route) : Prop := {
  rwf_slash : startswith (route.pattern rt) "/" = true;
  rwf_name : ∃ n, route.name rt = prepare_route_name self n;
  rwf_pattern : ∃ p, route.pattern rt = prepare_route_pattern self p;
  rwf_handler : callable (route.handler rt) = true
}.

(** Routes are well formed, no Route object is owned twice, and the cache
    of [match_pattern] holds at most [maxsize] entries under distinct keys. *)
Record world_inv_more (w : World) : Prop := {
  inv_routes :
    ∀ k r rt, routers w !! k = Some r → rt ∈ routes r → route_wf r rt;
  inv_route_oids :
    ∀ k k' r r' rt rt',
      routers w !! k = Some r → routers w !! k' = Some r' →
      rt ∈ routes r → rt' ∈ routes r' → route.oid rt = route.oid rt' →
      k = k' ∧ rt = rt';
  inv_cache_size :
    (length (match_pattern_cache (interp w)) ≤ functools.maxsize)%nat;
  inv_cache_keys : NoDup (match_pattern_cache (interp w)).*1
}.

(** [r'] is [r] at a later time: the same object, name and prefix, and the
    routes of [r] followed by those registered since. *)
Definition extends (r r' : Router) : Prop :=
  router.oid r' = router.oid r ∧ _name r' = _name r ∧ _prefix r' = _prefix r ∧
  _routes r `prefix_of` _routes r'.

(** The state after [r = Router(); s = Router(name="b")] and
    [add_route("a", "/a", ...)] on each. *)
Definition first_a_route : Route :=
  {| route.oid := 2; route._name := "a"; route._pattern := "/a";
     route._handler := hello_world; route._methods := {[ "GET" ]} |}.

Definition second_a_route : Route :=
  {| route.oid := 3; route._name := "b.a"; route._pattern := "/a";
     route._handler := hello_world; route._methods := {[ "GET" ]} |}.

Definition first_router : Router :=
  {| router.oid := 0; _name := None; _prefix := None;
     _routes := [("a", first_a_route)] |}.

Definition second_router : Router :=
  {| router.oid := 1; _name := Some "b"; _prefix := None;
     _routes := [("b.a", second_a_route)] |}.

Definition two_routers : World :=
  {| routers := [first_router; second_router];
     interp := {| next_oid := 4; match_pattern_cache := [] |} |}.

(** ** The dict *)

Section dict_facts.
Context {V : Type}.
Implicit Types (d : list (string * V)) (k : string) (v : V).

Lemma dict_get_None d k : dict_get d k = None ↔ k ∉ dict_keys d.
Proof.
  unfold dict_keys. induction d as [|[k' v'] d IH]; simpl.
  - split; [intros _; apply not_elem_of_nil | done].
  - rewrite not_elem_of_cons. destruct (decide (k' = k)) as [->|Hne].
    + split; [done | intros [? _]; done].
    + rewrite IH. split; [intros ?; split; [congruence | done] | intros [_ ?]; done].
Qed.

Lemma dict_get_Some_elem d k v : dict_get d k = Some v → (k, v) ∈ d.
Proof.
  induction d as [|[k' v'] d IH]; simpl; [done |].
  destruct (decide (k' = k)) as [->|Hne].
  - intros [= ->]. apply list_elem_of_here.
  - intros H. apply list_elem_of_further, IH, H.
Qed.

Lemma dict_get_elem d k v :
  NoDup (dict_keys d) → (k, v) ∈ d → dict_get d k = Some v.
Proof.
  unfold dict_keys. induction d as [|[k' v'] d IH]; simpl.
  - intros _ H. by apply elem_of_nil in H.
  - rewrite NoDup_cons. intros [Hk' Hnd] [Heq | Hin]%elem_of_cons.
    + injection Heq as -> ->. by rewrite decide_True.
    + destruct (decide (k' = k)) as [->|Hne]; [| by apply IH].
      exfalso. apply Hk'. apply list_elem_of_fmap. by exists (k, v).
Qed.

Lemma dict_setitem_fresh d k v :
  dict_get d k = None → dict_setitem k v d = d ++ [(k, v)].
Proof.
  induction d as [|[k' v'] d IH]; simpl; [done |].
  destruct (decide (k' = k)); [done |]. intros H. by rewrite IH.
Qed.

Lemma dict_get_setitem_eq d k v : dict_get (dict_setitem k v d) k = Some v.
Proof.
  induction d as [|[k' v'] d IH]; simpl.
  - by rewrite decide_True.
  - destruct (decide (k' = k)) as [->|Hne]; simpl.
    + by rewrite decide_True.
    + by rewrite decide_False.
Qed.

Lemma dict_get_setitem_ne d k k' v :
  k ≠ k' → dict_get (dict_setitem k v d) k' = dict_get d k'.
Proof.
  intros Hne. induction d as [|[k0 v0] d IH]; simpl.
  - by rewrite decide_False.
  - destruct (decide (k0 = k)) as [->|Hne0]; simpl.
    + by rewrite !decide_False.
    + destruct (decide (k0 = k')); [done | apply IH].
Qed.

Lemma dict_keys_setitem d k v :
  NoDup (dict_keys d) → NoDup (dict_keys (dict_setitem k v d)).
Proof.
  intros Hnd. destruct (dict_get d k) as [v0|] eqn:Hget.
  - assert (dict_keys (dict_setitem k v d) = dict_keys d) as ->; [| done].
    clear Hnd. unfold dict_keys.
    induction d as [|[k' v'] d IH]; simpl in *; [done |].
    destruct (decide (k' = k)); simpl; [done | f_equal; by apply IH].
  - rewrite dict_setitem_fresh by done.
    unfold dict_keys in *. rewrite fmap_app. simpl.
    apply NoDup_app. split_and!; [done | | apply NoDup_singleton].
    intros x Hx ->%list_elem_of_singleton.
    by apply dict_get_None in Hget.
Qed.
End dict_facts.

(** ** Registration *)

Ltac st_unfold :=
  unfold mbind, mret, st_bind, st_ret, outcome_bind, outcome_ret, raise, lift,
    get_self, setitem_routes, new_Route, alloc, check_route_name,
    check_route_pattern, prepare_route_handler, route.__init__ in *.

Lemma add_route_accepts self i n p handler methods ms :
  callable handler = true →
  dict_get (_routes self) (prepare_route_name self n) = None →
  startswith (prepare_route_pattern self p) "/" = true →
  normalize_methods methods = Return ms →
  add_route (PyStr n) (PyStr p) handler methods (self, i)
  = (Return (registered_route self i n p handler ms),
     (with_routes self
        (_routes self ++
           [(prepare_route_name self n, registered_route self i n p handler ms)]),
      {| next_oid := S (next_oid i);
         match_pattern_cache := match_pattern_cache i |})).
Proof.
  intros Hc Hfresh Hslash Hms. unfold add_route. rewrite Hc. simpl.
  st_unfold. simpl. unfold dict_contains. rewrite Hfresh, Hslash. simpl.
  rewrite Hms. simpl. by rewrite dict_setitem_fresh.
Qed.

Lemma add_route_Return_inv name pattern handler methods self i rt self' i' :
  add_route name pattern handler methods (self, i) = (Return rt, (self', i')) →
  ∃ n p ms,
    name = PyStr n ∧ pattern = PyStr p ∧ callable handler = true ∧
    dict_get (_routes self) (prepare_route_name self n) = None ∧
    startswith (prepare_route_pattern self p) "/" = true ∧
    normalize_methods methods = Return ms ∧
    rt = registered_route self i n p handler ms ∧
    self' = with_routes self
              (_routes self ++ [(prepare_route_name self n, rt)]) ∧
    i' = {| next_oid := S (next_oid i);
            match_pattern_cache := match_pattern_cache i |}.
Proof.
  unfold add_route.
  destruct name as [| | |n| | | |]; try (st_unfold; discriminate).
  destruct pattern as [| | |p| | | |]; try (st_unfold; discriminate).
  destruct (callable handler) eqn:Hc; simpl; [| st_unfold; discriminate].
  st_unfold. simpl. unfold dict_contains.
  destruct (dict_get (_routes self) (prepare_route_name self n)) eqn:Hfresh;
    [discriminate |].
  destruct (startswith (prepare_route_pattern self p) "/") eqn:Hslash; simpl;
    [| discriminate].
  destruct (normalize_methods methods) as [ms|e] eqn:Hms; simpl; [| discriminate].
  intros [= <- <- <-]. exists n, p, ms.
  rewrite dict_setitem_fresh by done. by split_and!.
Qed.

Lemma add_route_Raise_inv name pattern handler methods self i e self' i' :
  add_route name pattern handler methods (self, i) = (Raise e, (self', i')) →
  self' = self ∧ match_pattern_cache i' = match_pattern_cache i ∧
  (next_oid i ≤ next_oid i')%nat.
Proof.
  unfold add_route.
  destruct name as [| | |n| | | |];
    try (st_unfold; intros [= <- <- <-]; split_and!; done).
  destruct pattern as [| | |p| | | |];
    try (st_unfold; intros [= <- <- <-]; split_and!; done).
  destruct (callable handler) eqn:Hc; simpl;
    [| st_unfold; intros [= <- <- <-]; split_and!; done].
  st_unfold. simpl. unfold dict_contains.
  destruct (dict_get (_routes self) (prepare_route_name self n)) eqn:Hfresh;
    [intros [= <- <- <-]; split_and!; done |].
  destruct (startswith (prepare_route_pattern self p) "/") eqn:Hslash; simpl;
    [| intros [= <- <- <-]; split_and!; done].
  destruct (normalize_methods methods) as [ms|e'] eqn:Hms; simpl; [discriminate |].
  intros [= <- <- <-]. simpl. split_and!; [done | done | lia].
Qed.

(** ** Lookup by name *)

Lemma match_name_no_fallback self name :
  match_name self name None = Return (dict_get (_routes self) name).
Proof.
  simp match_name. unfold dict_getitem.
  destruct (dict_get (_routes self) name); reflexivity.
Qed.

Lemma match_name_found self name fallback route :
  dict_get (_routes self) name = Some route →
  match_name self name fallback = Return (Some route).
Proof.
  intros H. simp match_name. unfold dict_getitem. rewrite H. reflexivity.
Qed.

Lemma match_name_retry self name fb :
  dict_get (_routes self) name = None → str_truthy fb = true →
  match_name self name (Some fb) = match_name self fb None.
Proof.
  intros H Hfb. rewrite (match_name_equation_1 self name (Some fb)).
  unfold dict_getitem. rewrite H. simpl. rewrite Hfb. reflexivity.
Qed.

Lemma match_name_falsy self name fallback :
  dict_get (_routes self) name = None → truthy fallback = false →
  match_name self name fallback = Return None.
Proof.
  intros H Hfb. rewrite (match_name_equation_1 self name fallback).
  unfold dict_getitem. rewrite H. simpl.
  destruct fallback as [fb|]; simpl in *; [rewrite Hfb |]; reflexivity.
Qed.

(** ** Lookup by pattern *)

Lemma match_name_returns self name fallback :
  ∃ v, match_name self name fallback = Return v.
Proof.
  destruct (dict_get (_routes self) name) as [route|] eqn:Hget.
  - exists (Some route). by apply match_name_found.
  - destruct (truthy fallback) eqn:Hfb.
    + destruct fallback as [fb|]; [| done]. simpl in Hfb.
      exists (dict_get (_routes self) fb).
      rewrite match_name_retry by done. apply match_name_no_fallback.
    + exists None. by apply match_name_falsy.
Qed.

Lemma match_pattern_body_returns self pattern fallback :
  ∃ v, match_pattern_body self pattern fallback = Return v.
Proof.
  unfold match_pattern_body.
  destruct (for_route_in _ _) as [route|]; [by eexists |].
  destruct fallback as [fb|]; [| by eexists].
  destruct (str_truthy fb); [apply match_name_returns | by eexists].
Qed.

Lemma match_pattern_hit self pattern call i v :
  functools.cache_get (match_pattern_cache i) (make_key (router.oid self) pattern call)
    = Some v →
  match_pattern self pattern call i
  = (Return v,
     set_cache (functools.cache_hit (make_key (router.oid self) pattern call) v
                  (match_pattern_cache i)) i).
Proof.
  intros H. unfold match_pattern, functools.lru_cache. by rewrite H.
Qed.

Lemma match_pattern_miss self pattern call i v :
  functools.cache_get (match_pattern_cache i) (make_key (router.oid self) pattern call)
    = None →
  match_pattern_body self pattern (call_fallback call) = Return v →
  match_pattern self pattern call i
  = (Return v,
     set_cache (functools.cache_miss (make_key (router.oid self) pattern call) v
                  (match_pattern_cache i)) i).
Proof.
  intros H Hb. unfold match_pattern, functools.lru_cache, lift.
  by rewrite H, Hb.
Qed.

Lemma cache_get_Some_elem {K V} `{EqDecision K} (c : list (K * V)) k v :
  functools.cache_get c k = Some v → (k, v) ∈ c.
Proof.
  induction c as [|[k' v'] c IH]; simpl; [done |].
  destruct (decide (k' = k)) as [->|Hne].
  - intros [= ->]. apply list_elem_of_here.
  - intros H. apply list_elem_of_further, IH, H.
Qed.

(** ** The key of a call *)

(** Two calls have the same key only when they are on the same router, with
    the same pattern, and pass their arguments in the same way. *)
Lemma make_key_inj self pattern call self' pattern' call' :
  make_key self pattern call = make_key self' pattern' call' →
  self = self' ∧ pattern = pattern' ∧ call = call'.
Proof.
  destruct call as [[|f|f] | [|f|f] | [] [[[] f]|]];
    destruct call' as [[|f'|f'] | [|f'|f'] | [] [[[] f']|]];
    try destruct f; try destruct f';
    unfold make_key; simpl; intros H; simplify_eq/=; done.
Qed.

(** The keys of [r.match_pattern("/a")], [r.match_pattern("/a", None)],
    [r.match_pattern("/a", fallback=None)], [r.match_pattern(pattern="/a")]
    and [Router.match_pattern(pattern="/a", fallback="x", self=r)], for the
    router [r] of identity 0. *)
Example make_key_examples :
  make_key 0 "/a" (Positional FbOmitted) = [KObj 0; KStr "/a"] ∧
  make_key 0 "/a" (Positional (FbPositional None))
  = [KObj 0; KStr "/a"; KNone] ∧
  make_key 0 "/a" (Positional (FbKeyword None))
  = [KObj 0; KStr "/a"; KMark; KStr "fallback"; KNone] ∧
  make_key 0 "/a" (PatternKeyword KfOmitted)
  = [KObj 0; KMark; KStr "pattern"; KStr "/a"] ∧
  make_key 0 "/a" (AllKeywords false (Some (Second, Some "x")))
  = [KMark; KStr "pattern"; KStr "/a"; KStr "fallback"; KStr "x";
     KStr "self"; KObj 0].
Proof. by repeat split. Qed.

(** ** Invariants of the reachable states *)

Lemma router_wf_mono n m r : (n ≤ m)%nat → router_wf n r → router_wf m r.
Proof.
  intros Hle [H1 H2 H3 H4 H5]. split; [lia | done | done | | done].
  eapply Forall_impl; [exact H4 |]. simpl. intros. lia.
Qed.

Lemma with_routes_id r : with_routes r (_routes r) = r.
Proof. by destruct r. Qed.

Lemma with_routes_with_routes r d d' :
  with_routes (with_routes r d) d' = with_routes r d'.
Proof. reflexivity. Qed.

Lemma router_init_Return name prefix i r i' :
  router.__init__ name prefix i = (Return r, i') →
  r = {| router.oid := next_oid i; _name := name; _prefix := prefix;
         _routes := [] |} ∧
  i' = {| next_oid := S (next_oid i);
          match_pattern_cache := match_pattern_cache i |} ∧
  prefix_wf prefix.
Proof.
  unfold router.__init__. destruct prefix as [p|]; simpl.
  - destruct (str_truthy p && negb (startswith p "/")) eqn:Hchk;
      st_unfold; [discriminate |].
    intros [= <- <-]. split_and!; [done | done |].
    apply andb_false_iff in Hchk as [Hp | Hs].
    + left. unfold str_truthy in Hp. apply negb_false_iff in Hp.
      by apply String.eqb_eq in Hp.
    + right. by apply negb_false_iff in Hs.
  - st_unfold. intros [= <- <-]. done.
Qed.

Lemma router_init_Raise name prefix i e i' :
  router.__init__ name prefix i = (Raise e, i') → i' = i.
Proof.
  unfold router.__init__. destruct prefix as [p|]; simpl.
  - destruct (str_truthy p && negb (startswith p "/")); st_unfold;
      [by intros [= _ <-] | discriminate].
  - st_unfold. discriminate.
Qed.

Lemma world_inv_init : world_inv init.
Proof.
  split; simpl.
  - intros k r H. by rewrite lookup_nil in H.
  - intros k k' r r' H. by rewrite lookup_nil in H.
  - constructor.
Qed.

Lemma cache_entry_sound_snoc rs r e :
  cache_entry_sound rs e → cache_entry_sound (rs ++ [r]) e.
Proof.
  intros (k & r0 & n & p & c & Hk & Ho & Hb). exists k, r0, n, p, c.
  split_and!; [| done | done]. by apply lookup_app_l_Some.
Qed.

Lemma cache_entry_sound_insert rs k r x e :
  rs !! k = Some r →
  cache_entry_sound rs e →
  cache_entry_sound (<[k:=with_routes r (_routes r ++ [x])]> rs) e.
Proof.
  intros Hr (k0 & r0 & n & p & c & Hk & Ho & Hb).
  destruct (decide (k0 = k)) as [->|Hne].
  - assert (r0 = r) as -> by congruence.
    exists k, (with_routes r (_routes r ++ [x])), (n `min` length (_routes r)),
      p, c.
    split_and!.
    + apply list_lookup_insert_eq. by eapply lookup_lt_Some.
    + done.
    + rewrite with_routes_with_routes. simpl.
      rewrite take_app_le by lia.
      destruct (decide (n ≤ length (_routes r))%nat).
      * by rewrite Nat.min_l by lia.
      * rewrite Nat.min_r by lia. rewrite firstn_all.
        by rewrite take_ge in Hb by lia.
  - exists k0, r0, n, p, c. split_and!; [| done | done].
    by rewrite list_lookup_insert_ne.
Qed.

Lemma world_inv_NewRouter w name prefix :
  world_inv w → world_inv (exec w (NewRouter name prefix)).
Proof.
  intros [Hr Ho Hc]. simpl.
  destruct (router.__init__ name prefix (interp w)) as [[r|e] i'] eqn:Hinit.
  - apply router_init_Return in Hinit as (-> & -> & Hp).
    split; simpl.
    + intros k r [[_ Hk] | [-> <-]]%lookup_snoc_Some.
      * eapply router_wf_mono; [| by eapply Hr]. lia.
      * split; simpl; [lia | constructor | constructor | constructor | done].
    + intros k k' r r' [[_ Hk] | [-> <-]]%lookup_snoc_Some
        [[_ Hk'] | [-> <-]]%lookup_snoc_Some; simpl.
      * by eapply Ho.
      * intros Heq. apply Hr in Hk as [Hlt _ _ _ _]. lia.
      * intros Heq. apply Hr in Hk' as [Hlt _ _ _ _]. lia.
      * done.
    + eapply Forall_impl; [exact Hc |]. intros e. apply cache_entry_sound_snoc.
  - apply router_init_Raise in Hinit as ->. by split.
Qed.

Lemma world_inv_NewRoute w name pattern handler methods :
  world_inv w → world_inv (exec w (NewRoute name pattern handler methods)).
Proof.
  intros [Hr Ho Hc]. split; simpl; [| done | done].
  intros k r Hk. eapply router_wf_mono; [| by eapply Hr]. lia.
Qed.

Lemma world_inv_AddRoute w k name pattern handler methods :
  world_inv w → world_inv (exec w (AddRoute k name pattern handler methods)).
Proof.
  intros Hw. simpl. destruct (routers w !! k) as [r|] eqn:Hk; [| done].
  destruct Hw as [Hr Ho Hc].
  destruct (add_route name pattern handler methods (r, interp w))
    as [[rt|e] [r' i']] eqn:Hadd; simpl.
  - apply add_route_Return_inv in Hadd
      as (n & p & ms & -> & -> & _ & Hfresh & _ & _ & Hrt & -> & ->).
    pose proof (Hr k r Hk) as [W1 W2 W3 W4 W5].
    assert (∀ j x,
      <[k:=with_routes r (_routes r ++ [(prepare_route_name r n, rt)])]>
        (routers w) !! j = Some x →
      ∃ y, routers w !! j = Some y ∧ router.oid x = router.oid y ∧
           (j ≠ k → x = y)) as Hlook.
    { intros j x Hj. destruct (decide (j = k)) as [->|Hne].
      - rewrite list_lookup_insert_eq in Hj by (by eapply lookup_lt_Some).
        injection Hj as <-. by exists r.
      - rewrite list_lookup_insert_ne in Hj by done. by exists x. }
    split; simpl.
    + intros j x Hj. destruct (decide (j = k)) as [->|Hne].
      * rewrite list_lookup_insert_eq in Hj by (by eapply lookup_lt_Some).
        injection Hj as <-. split; simpl.
        -- lia.
        -- unfold dict_keys in *. rewrite fmap_app. simpl.
           apply NoDup_app. split_and!; [done | | apply NoDup_singleton].
           intros x Hx ->%list_elem_of_singleton.
           by apply dict_get_None in Hfresh.
        -- apply Forall_app. split; [done |]. constructor; [| constructor].
           by rewrite Hrt.
        -- apply Forall_app. split.
           ++ eapply Forall_impl; [exact W4 |]. simpl. intros. lia.
           ++ constructor; [| constructor]. rewrite Hrt. simpl. lia.
        -- done.
      * rewrite list_lookup_insert_ne in Hj by done.
        eapply router_wf_mono; [| by eapply Hr]. lia.
    + intros j j' x x' (y & Hy & Hoy & _)%Hlook (y' & Hy' & Hoy' & _)%Hlook Heq.
      eapply Ho; [exact Hy | exact Hy' | congruence].
    + eapply Forall_impl; [exact Hc |]. intros e.
      by apply cache_entry_sound_insert.
  - apply add_route_Raise_inv in Hadd as (-> & Hcache & Hle).
    rewrite list_insert_id by done. split; simpl.
    + intros j x Hj. eapply router_wf_mono; [exact Hle | by eapply Hr].
    + done.
    + by rewrite Hcache.
Qed.

Lemma world_inv_MatchPattern w k pattern call :
  world_inv w → world_inv (exec w (MatchPattern k pattern call)).
Proof.
  intros Hw. simpl. destruct (routers w !! k) as [r|] eqn:Hk; [| done].
  destruct Hw as [Hr Ho Hc].
  destruct (functools.cache_get (match_pattern_cache (interp w))
              (make_key (router.oid r) pattern call)) as [v|] eqn:Hget.
  - rewrite (match_pattern_hit _ _ _ _ _ Hget). split; simpl; [done | done |].
    rewrite Forall_forall in Hc. unfold functools.cache_hit.
    constructor.
    + apply Hc. by apply cache_get_Some_elem.
    + apply Forall_forall. intros e [_ He]%list_elem_of_filter. by apply Hc.
  - destruct (match_pattern_body_returns r pattern (call_fallback call))
      as [v Hv].
    rewrite (match_pattern_miss _ _ _ _ _ Hget Hv). split; simpl; [done | done |].
    unfold functools.cache_miss. apply Forall_take. constructor; [| done].
    exists k, r, (length (_routes r)), pattern, call.
    split_and!; [done | done |]. simpl.
    by rewrite firstn_all, with_routes_id.
Qed.

Lemma world_inv_exec w c : world_inv w → world_inv (exec w c).
Proof.
  destruct c.
  - apply world_inv_NewRouter.
  - apply world_inv_NewRoute.
  - apply world_inv_AddRoute.
  - apply world_inv_MatchPattern.
  - done.
  - done.
  - done.
  - done.
  - intros [Hr Ho Hc]. by split; [| | constructor].
Qed.

Lemma run_snoc calls c : run (calls ++ [c]) = exec (run calls) c.
Proof. unfold run. by rewrite foldl_app. Qed.

Lemma reachable_inv w : reachable w → world_inv w.
Proof.
  intros [calls <-]. induction calls as [|c calls IH] using rev_ind.
  - apply world_inv_init.
  - rewrite run_snoc. by apply world_inv_exec.
Qed.

(** What the cache holds for a router is a result the lookup had earlier,
    when the router owned the first [n] of its routes. *)
Lemma cached_result_is_earlier w k self pattern call v :
  reachable w → routers w !! k = Some self →
  functools.cache_get (match_pattern_cache (interp w))
    (make_key (router.oid self) pattern call) = Some v →
  ∃ n,
    match_pattern_body (with_routes self (take n (_routes self))) pattern
      (call_fallback call) = Return v.
Proof.
  intros [_ Ho Hc]%reachable_inv Hk Hget%cache_get_Some_elem.
  rewrite Forall_forall in Hc.
  destruct (Hc _ Hget) as (k0 & r0 & n & p0 & c0 & Hk0 & Hkey & Hbody).
  simpl in Hkey, Hbody. apply make_key_inj in Hkey as (Hoid & -> & ->).
  assert (k0 = k) as -> by (by eapply Ho).
  assert (r0 = self) as -> by congruence.
  by exists n.
Qed.

(** ** The repository's tests, replayed on the model *)

Example plain_router_built :
  router.__init__ None None boot = (Return plain_router, after_plain_router).
Proof. reflexivity. Qed.

(** [test_route_attrs] *)
Example test_route_attrs :
  route.__init__ 0 "test" "/test" hello_world (PyList [PyStr "get"])
  = Return {| route.oid := 0; route._name := "test"; route._pattern := "/test";
              route._handler := hello_world; route._methods := {[ "GET" ]} |}.
Proof. reflexivity. Qed.

(** [test_router_add_route] *)
Example test_router_add_route :
  ∃ rt self' i',
    add_route (PyStr "test") (PyStr "/test") hello_world GET
      (plain_router, after_plain_router) = (Return rt, (self', i')) ∧
    __contains__ self' (route.ref rt) = true.
Proof. eexists _, _, _. split; vm_compute; reflexivity. Qed.

(** [test_router_match_name_with_router_name_and_prefix] *)
Example test_router_match_name_with_router_name_and_prefix :
  ∃ r rt,
    routers (run [NewRouter (Some "test") (Some "/api");
                  AddRoute 0 (PyStr "hello_world") (PyStr "/hello-world")
                    hello_world GET]) !! 0 = Some r ∧
    routes r = [rt] ∧ route.pattern rt = "/api/hello-world" ∧
    match_name r "test.hello_world" None = Return (Some rt).
Proof. eexists _, _. split_and!; vm_compute; reflexivity. Qed.

(** [test_router_match_name_no_match] and
    [test_router_match_name_with_fallback] *)
Example test_router_match_name_with_fallback :
  ∃ r rt fb,
    routers (run [NewRouter None None;
                  AddRoute 0 (PyStr "test") (PyStr "/test") hello_world GET;
                  AddRoute 0 (PyStr "not_found") (PyStr "/404") hello_world GET])
      !! 0 = Some r ∧
    routes r = [rt; fb] ∧
    match_name r "foo" None = Return None ∧
    match_name r "does_not_exist" (Some "not_found") = Return (Some fb).
Proof. eexists _, _, _. split_and!; vm_compute; reflexivity. Qed.

(** [test_router_match_pattern_matches], [test_router_match_pattern_no_match]
    and [test_router_match_pattern_no_match_with_fallback], each on a cache
    that has not seen the call. *)
Example test_router_match_pattern :
  ∃ r i rt fb,
    run [NewRouter None None;
         AddRoute 0 (PyStr "hello_world") (PyStr "/hello-world") hello_world GET;
         AddRoute 0 (PyStr "fallback") (PyStr "/fallback") hello_world GET]
    = {| routers := [r]; interp := i |} ∧
    routes r = [rt; fb] ∧
    (match_pattern r "/hello-world" (Positional FbOmitted) i).1 = Return (Some rt) ∧
    (match_pattern r "/ahoy-there" (Positional FbOmitted) i).1 = Return None ∧
    (match_pattern r "/does-not-exist" (Positional (FbPositional (Some "fallback"))) i).1
      = Return (Some fb).
Proof. eexists _, _, _, _. split_and!; vm_compute; reflexivity. Qed.

(** [test_router_raises_router_error_with_bad_prefix] *)
Example test_router_raises_router_error_with_bad_prefix :
  router.__init__ None (Some "bad") boot
  = (Raise (RouterError
       "Parameter 'prefix' must start with a leading slash '/' not 'bad'"),
     boot).
Proof. reflexivity. Qed.

(** [test_router_len] *)
Example test_router_len :
  __len__ <$>
    routers (run [NewRouter None None;
                  AddRoute 0 (PyStr "test") (PyStr "/test") hello_world GET;
                  AddRoute 0 (PyStr "test2") (PyStr "/test2") hello_world GET])
      !! 0 = Some 2.
Proof. reflexivity. Qed.

(** [test_router_raises_router_error_pattern_no_slash] *)
Example test_router_raises_router_error_pattern_no_slash :
  add_route (PyStr "fail") (PyStr "fail") hello_world (PyList [PyStr "get"])
    (plain_router, after_plain_router)
  = (Raise (RouterError "'pattern' must start with a '/'"),
     (plain_router, after_plain_router)).
Proof. reflexivity. Qed.

(** ** Registration, then lookup by name *)

Lemma dict_get_snoc_fresh {V} (d : list (string * V)) k v :
  dict_get d k = None → dict_get (d ++ [(k, v)]) k = Some v.
Proof.
  intros H. rewrite <- (dict_setitem_fresh d k v H). apply dict_get_setitem_eq.
Qed.

Lemma match_name_after_add_route name pattern handler methods self i rt self' i'
    fallback :
  add_route name pattern handler methods (self, i) = (Return rt, (self', i')) →
  match_name self' (route.name rt) fallback = Return (Some rt).
Proof.
  intros (n & p & ms & _ & _ & _ & Hfresh & _ & _ & Hrt & -> & _)%add_route_Return_inv.
  apply match_name_found. simpl.
  assert (route.name rt = prepare_route_name self n) as -> by (by rewrite Hrt).
  by apply dict_get_snoc_fresh.
Qed.

Lemma add_route_returns self i n p handler methods ms :
  callable handler = true →
  normalize_methods methods = Return ms →
  startswith (prepare_route_pattern self p) "/" = true →
  dict_contains (prepare_route_name self n) (_routes self) = false →
  ∃ rt self' i',
    add_route (PyStr n) (PyStr p) handler methods (self, i)
      = (Return rt, (self', i')) ∧
    route.name rt = prepare_route_name self n.
Proof.
  intros Hc Hms Hslash Hfresh.
  assert (dict_get (_routes self) (prepare_route_name self n) = None) as Hget.
  { unfold dict_contains in Hfresh. by destruct (dict_get _ _). }
  pose proof (add_route_accepts self i n p handler methods ms Hc Hget Hslash Hms)
    as Hadd.
  eexists _, _, _. split; [exact Hadd | done].
Qed.

(** C1: for every valid registration input (a string name, a string pattern
    whose qualified form starts with a slash, a callable handler, methods that
    normalise) on a router in which the qualified name is not yet registered,
    [add_route] returns a Route, and [match_name] with the qualified name of
    that Route returns the same Route, whatever the fallback. *)
Theorem add_route_then_match_name self i n p handler methods ms :
  callable handler = true →
  normalize_methods methods = Return ms →
  startswith (prepare_route_pattern self p) "/" = true →
  dict_contains (prepare_route_name self n) (_routes self) = false →
  ∃ rt self' i',
    add_route (PyStr n) (PyStr p) handler methods (self, i)
      = (Return rt, (self', i')) ∧
    route.name rt = prepare_route_name self n ∧
    ∀ fallback, match_name self' (route.name rt) fallback = Return (Some rt).
Proof.
  intros Hc Hms Hslash Hfresh.
  destruct (add_route_returns self i n p handler methods ms
              Hc Hms Hslash Hfresh) as (rt & self' & i' & Hadd & Hname).
  exists rt, self', i'. split_and!; [done | done |].
  intros fallback. eapply match_name_after_add_route. exact Hadd.
Qed.

Lemma add_route_then_match_name_witness :
  callable hello_world = true ∧
  normalize_methods GET = Return {[ "GET" ]} ∧
  startswith (prepare_route_pattern plain_router "/test") "/" = true ∧
  dict_contains (prepare_route_name plain_router "test") (_routes plain_router)
    = false ∧
  ∃ rt self' i',
    add_route (PyStr "test") (PyStr "/test") hello_world GET
      (plain_router, after_plain_router) = (Return rt, (self', i')) ∧
    route.name rt = prepare_route_name plain_router "test" ∧
    ∀ fallback, match_name self' (route.name rt) fallback = Return (Some rt).
Proof.
  assert (callable hello_world = true) as H1 by reflexivity.
  assert (normalize_methods GET = Return {[ "GET" ]}) as H2 by reflexivity.
  assert (startswith (prepare_route_pattern plain_router "/test") "/" = true)
    as H3 by reflexivity.
  assert (dict_contains (prepare_route_name plain_router "test")
            (_routes plain_router) = false) as H4 by reflexivity.
  split_and!; [exact H1 | exact H2 | exact H3 | exact H4 |].
  exact (add_route_then_match_name plain_router after_plain_router
           "test" "/test" hello_world GET {[ "GET" ]} H1 H2 H3 H4).
Defined.

(** ** Qualified names and patterns *)

Lemma prepare_route_name_qualified self n :
  prepare_route_name self n =
  match router.name self with
  | Some router_name =>
      if decide (router_name = "") then n else router_name +:+ "." +:+ n
  | None => n
  end.
Proof.
  unfold prepare_route_name.
  destruct (router.name self) as [rn|]; [| done].
  destruct (decide (rn = "")) as [->|Hne]; [done |].
  unfold str_truthy. by apply String.eqb_neq in Hne as ->.
Qed.

Lemma prepare_route_pattern_qualified self p :
  prepare_route_pattern self p =
  match router.prefix self with
  | Some router_prefix => router_prefix +:+ p
  | None => p
  end.
Proof.
  unfold prepare_route_pattern.
  destruct (router.prefix self) as [pf|]; [| done].
  destruct (str_truthy pf) eqn:Hpf; [done |].
  unfold str_truthy in Hpf. apply negb_false_iff, String.eqb_eq in Hpf as ->.
  reflexivity.
Qed.

(** C2, as amended: after a successful [add_route] the stored Route's name is
    the router's name, a dot and the given name when the router has a
    non-empty name, and the given name verbatim when the router has no name or
    the empty name; its pattern is the router's prefix followed by the given
    pattern when a prefix is present, and the given pattern otherwise. *)
Theorem add_route_stores_qualified name pattern handler methods self i rt self' i' :
  add_route name pattern handler methods (self, i) = (Return rt, (self', i')) →
  ∃ n p,
    name = PyStr n ∧ pattern = PyStr p ∧
    dict_get (_routes self') (route.name rt) = Some rt ∧
    route.name rt =
      match router.name self with
      | Some router_name =>
          if decide (router_name = "") then n else router_name +:+ "." +:+ n
      | None => n
      end ∧
    route.pattern rt =
      match router.prefix self with
      | Some router_prefix => router_prefix +:+ p
      | None => p
      end.
Proof.
  intros Hadd.
  pose proof (match_name_after_add_route _ _ _ _ _ _ _ _ _ None Hadd) as Hm.
  rewrite match_name_no_fallback in Hm. injection Hm as Hm.
  apply add_route_Return_inv in Hadd
    as (n & p & ms & -> & -> & _ & _ & _ & _ & Hrt & _ & _).
  exists n, p. split_and!; [done | done | done | |].
  - rewrite Hrt. apply prepare_route_name_qualified.
  - rewrite Hrt. apply prepare_route_pattern_qualified.
Qed.

Lemma add_route_stores_qualified_witness :
  add_route (PyStr "users") (PyStr "/users") hello_world GET
    (api_router, after_plain_router)
  = (Return users_route,
     (with_routes api_router [("rest_api.users", users_route)],
      {| next_oid := 2; match_pattern_cache := [] |})) ∧
  ∃ n p,
    PyStr "users" = PyStr n ∧ PyStr "/users" = PyStr p ∧
    dict_get (_routes (with_routes api_router [("rest_api.users", users_route)]))
      (route.name users_route) = Some users_route ∧
    route.name users_route =
      match router.name api_router with
      | Some router_name =>
          if decide (router_name = "") then n else router_name +:+ "." +:+ n
      | None => n
      end ∧
    route.pattern users_route =
      match router.prefix api_router with
      | Some router_prefix => router_prefix +:+ p
      | None => p
      end.
Proof.
  assert (add_route (PyStr "users") (PyStr "/users") hello_world GET
            (api_router, after_plain_router)
          = (Return users_route,
             (with_routes api_router [("rest_api.users", users_route)],
              {| next_oid := 2; match_pattern_cache := [] |}))) as H
    by reflexivity.
  split; [exact H |].
  exact (add_route_stores_qualified _ _ _ _ _ _ _ _ _ H).
Defined.

(** C2 fails as stated on [Router(name="")]: the router has a name, the empty
    string, yet the route registered as "home" is stored as "home", not as
    the router's name, a dot and the given name (".home"). *)
Lemma add_route_empty_router_name_counterexample :
  router.__init__ (Some "") None boot = (Return unnamed_router, after_plain_router) ∧
  router.name unnamed_router = Some "" ∧
  add_route (PyStr "home") (PyStr "/") hello_world GET
    (unnamed_router, after_plain_router)
  = (Return home_route,
     (with_routes unnamed_router [("home", home_route)],
      {| next_oid := 2; match_pattern_cache := [] |})) ∧
  route.name home_route = "home" ∧
  route.name home_route ≠ "" +:+ "." +:+ "home".
Proof. split_and!; [reflexivity | reflexivity | reflexivity | reflexivity | discriminate]. Qed.

(** ** Lookup by name with a fallback *)

(** C4, as amended: [match_name] never raises.  A present name gives its
    Route.  For an absent name, a non-empty fallback makes the call retry with
    the fallback as the name and no further fallback, so the result is the
    fallback's Route, or no match when the fallback name is absent too; no
    fallback, or the empty string as fallback, gives no match. *)
Theorem match_name_total self name fallback :
  ∃ v,
    match_name self name fallback = Return v ∧
    match dict_get (_routes self) name with
    | Some route => v = Some route
    | None =>
        match fallback with
        | Some fb =>
            if decide (fb = "") then v = None
            else match_name self name fallback = match_name self fb None ∧
                 v = dict_get (_routes self) fb
        | None => v = None
        end
    end.
Proof.
  destruct (dict_get (_routes self) name) as [route|] eqn:Hget.
  - exists (Some route). split; [by apply match_name_found | done].
  - destruct fallback as [fb|].
    + destruct (decide (fb = "")) as [->|Hne].
      * exists None. split; [by apply match_name_falsy | done].
      * assert (str_truthy fb = true) as Hfb.
        { unfold str_truthy. by apply String.eqb_neq in Hne as ->. }
        exists (dict_get (_routes self) fb).
        rewrite match_name_retry by done.
        split; [apply match_name_no_fallback | done].
    + exists None. split; [by apply match_name_falsy | done].
Qed.

Lemma empty_name_registered :
  add_route (PyStr "") (PyStr "/") hello_world GET
    (plain_router, after_plain_router)
  = (Return empty_name_route, (empty_name_router, after_first_route)).
Proof. reflexivity. Qed.

(** C4 fails as stated when the fallback supplied is the empty string: the
    name "missing" is absent and a fallback is supplied, but the lookup is not
    retried with the fallback as the name, which would find the Route
    registered under the empty name. *)
Lemma match_name_empty_fallback_counterexample :
  add_route (PyStr "") (PyStr "/") hello_world GET
    (plain_router, after_plain_router)
  = (Return empty_name_route, (empty_name_router, after_first_route)) ∧
  dict_get (_routes empty_name_router) "missing" = None ∧
  match_name empty_name_router "" None = Return (Some empty_name_route) ∧
  match_name empty_name_router "missing" (Some "") = Return None.
Proof. split_and!; reflexivity. Qed.

(** ** Lookup by pattern: the loop, the fallback and the cache *)


Lemma for_route_in_none is_match routes :
  (∀ r, r ∈ routes → is_match r = false) → for_route_in is_match routes = None.
Proof.
  intros H. induction routes as [|r routes IH]; simpl; [done |].
  rewrite (H r) by apply list_elem_of_here.
  apply IH. intros r' Hr'. apply H. by apply list_elem_of_further.
Qed.

Lemma is_pattern_match_true self pattern route :
  is_pattern_match self pattern route = true ↔ route.pattern route = pattern.
Proof. unfold is_pattern_match. rewrite bool_decide_eq_true. naive_solver. Qed.

Lemma is_pattern_match_false self pattern route :
  is_pattern_match self pattern route = false ↔ route.pattern route ≠ pattern.
Proof. unfold is_pattern_match. rewrite bool_decide_eq_false. naive_solver. Qed.

Lemma routes_after_add_route name pattern handler methods self i rt self' i' :
  add_route name pattern handler methods (self, i) = (Return rt, (self', i')) →
  routes self' = routes self ++ [rt].
Proof.
  intros (n & p & ms & _ & _ & _ & _ & _ & _ & _ & -> & _)%add_route_Return_inv.
  unfold routes, dict_values. simpl. by rewrite fmap_app.
Qed.



(** ** Failed registrations *)

(** C5: whenever [add_route] fails with a [RouterError] (a bad parameter type,
    a duplicate qualified name or a rejected pattern), the router is as it
    was before the call: the same size, the same items in the same order, the
    same Route under every name. *)
Theorem add_route_failure_leaves_registry name pattern handler methods self i
    msg self' i' :
  add_route name pattern handler methods (self, i)
    = (Raise (RouterError msg), (self', i')) →
  self' = self ∧
  __len__ self' = __len__ self ∧
  items self' = items self ∧
  ∀ k, dict_get (_routes self') k = dict_get (_routes self) k.
Proof.
  intros (-> & _ & _)%add_route_Raise_inv. done.
Qed.

(** Registering the name "a" a second time. *)
Lemma add_route_failure_leaves_registry_witness :
  add_route (PyStr "a") (PyStr "/other") hello_world GET
    (a_router, after_first_route)
  = (Raise (RouterError "Route with name 'a' already exists"),
     (a_router, after_first_route)) ∧
  (a_router = a_router ∧
   __len__ a_router = __len__ a_router ∧
   items a_router = items a_router ∧
   ∀ k, dict_get (_routes a_router) k = dict_get (_routes a_router) k).
Proof.
  assert (add_route (PyStr "a") (PyStr "/other") hello_world GET
            (a_router, after_first_route)
          = (Raise (RouterError "Route with name 'a' already exists"),
             (a_router, after_first_route))) as H by reflexivity.
  split; [exact H |].
  exact (add_route_failure_leaves_registry _ _ _ _ _ _ _ _ _ H).
Defined.

(** ** Unique qualified names *)

Lemma add_route_duplicate self i n pattern handler methods :
  dict_contains (prepare_route_name self n) (_routes self) = true →
  ∃ msg,
    add_route (PyStr n) pattern handler methods (self, i)
      = (Raise (RouterError msg), (self, i)) ∧
    (is_str pattern = true → callable handler = true →
     msg = "Route with name '" +:+ n +:+ "' already exists").
Proof.
  intros Hdup. unfold add_route.
  destruct pattern as [| | |p| | | |];
    try (eexists; split; [st_unfold; reflexivity | discriminate]).
  destruct (callable handler) eqn:Hc; simpl.
  - st_unfold. simpl. rewrite Hdup. by eexists.
  - eexists; split; [st_unfold; reflexivity | discriminate].
Qed.

Lemma routes_names_keys (d : list (string * Route)) :
  Forall (λ kv, route.name kv.2 = kv.1) d →
  route.name <$> dict_values d = dict_keys d.
Proof.
  unfold dict_values, dict_keys.
  induction 1 as [|[k v] d Hkv _ IH]; simpl in *; [done |]. by f_equal.
Qed.

Lemma world_inv_names_unique w : world_inv w → names_unique w.
Proof.
  intros [Hr _ _] k self Hk. apply Hr in Hk as [_ Hkeys Hnames _ _].
  unfold routes. by rewrite routes_names_keys.
Qed.

(** C6: in every state that a sequence of calls (successful or failed)
    reaches from the start, no two routes owned by a router share a qualified
    name; every further call keeps it so; and registering a name whose
    qualified form is already present fails with a [RouterError], leaving the
    state as it was. *)
Theorem reachable_names_unique w :
  reachable w →
  names_unique w ∧
  (∀ c, names_unique (exec w c)) ∧
  (∀ k self n pattern handler methods,
     routers w !! k = Some self →
     dict_contains (prepare_route_name self n) (_routes self) = true →
     ∃ msg,
       add_route (PyStr n) pattern handler methods (self, interp w)
         = (Raise (RouterError msg), (self, interp w)) ∧
       (is_str pattern = true → callable handler = true →
        msg = "Route with name '" +:+ n +:+ "' already exists") ∧
       exec w (AddRoute k (PyStr n) pattern handler methods) = w).
Proof.
  intros Hreach. pose proof (reachable_inv w Hreach) as Hinv. split_and!.
  - by apply world_inv_names_unique.
  - intros c. by apply world_inv_names_unique, world_inv_exec.
  - intros k self n pattern handler methods Hk Hdup.
    destruct (add_route_duplicate self (interp w) n pattern handler methods Hdup)
      as (msg & Hadd & Hmsg).
    exists msg. split_and!; [done | done |].
    unfold exec. rewrite Hk, Hadd. simpl. rewrite list_insert_id by done.
    by destruct w.
Qed.

Lemma stale_world_reachable : reachable stale_world.
Proof.
  exists [NewRouter None None; MatchPattern 0 "/a" (Positional FbOmitted);
          AddRoute 0 (PyStr "a") (PyStr "/a") hello_world GET].
  reflexivity.
Defined.

Lemma reachable_names_unique_witness :
  reachable stale_world ∧
  names_unique stale_world ∧
  (∀ c, names_unique (exec stale_world c)) ∧
  (∀ k self n pattern handler methods,
     routers stale_world !! k = Some self →
     dict_contains (prepare_route_name self n) (_routes self) = true →
     ∃ msg,
       add_route (PyStr n) pattern handler methods (self, interp stale_world)
         = (Raise (RouterError msg), (self, interp stale_world)) ∧
       (is_str pattern = true → callable handler = true →
        msg = "Route with name '" +:+ n +:+ "' already exists") ∧
       exec stale_world (AddRoute k (PyStr n) pattern handler methods)
         = stale_world).
Proof.
  split; [exact stale_world_reachable |].
  exact (reachable_names_unique stale_world stale_world_reachable).
Defined.

(** ** Parameter checks *)

Lemma upper_each_Raise items e :
  upper_each items = Raise e → ∃ m, e = AttributeError m.
Proof.
  induction items as [|item items IH]; simpl; [discriminate |].
  destruct item; simpl; try (intros [= <-]; by eexists).
  unfold mbind, outcome_bind in *. destruct (upper_each items); simpl.
  - discriminate.
  - intros [= <-]. by apply IH.
Qed.

Lemma normalize_methods_Raise methods e :
  normalize_methods methods = Raise e →
  (∃ m, e = TypeError m) ∨ (∃ m, e = AttributeError m).
Proof.
  unfold normalize_methods, mbind, outcome_bind.
  destruct (iter methods) as [items|e'] eqn:Hiter.
  - destruct (upper_each items) as [tokens|e'] eqn:Hup; [discriminate |].
    intros [= <-]. right. by eapply upper_each_Raise.
  - intros [= <-]. left. destruct methods; simpl in Hiter; try discriminate;
      injection Hiter as <-; by eexists.
Qed.

(** C7, as amended: [add_route] checks three parameter types, in this order:
    the name is a string, the pattern is a string, the handler is callable.
    Each violation raises a [RouterError] whose message names the offending
    parameter and, for the pattern and the handler, that parameter's actual
    type.  The methods are not checked: when everything else is accepted,
    methods that are not an iterable of strings make the construction of the
    Route raise a [TypeError] or an [AttributeError], and the router is left as
    it was. *)
Theorem add_route_type_checks name pattern handler methods self i :
  (is_str name = false →
   ∃ actual,
     add_route name pattern handler methods (self, i)
     = (Raise (RouterError
          ("parameter 'name' must be a string, not '" +:+ actual +:+ "'")),
        (self, i))) ∧
  (is_str name = true → is_str pattern = false →
   add_route name pattern handler methods (self, i)
   = (Raise (RouterError
        ("parameter 'pattern' must be a string, not '"
           +:+ type_repr pattern +:+ "'")),
      (self, i))) ∧
  (is_str name = true → is_str pattern = true → callable handler = false →
   add_route name pattern handler methods (self, i)
   = (Raise (RouterError
        ("parameter 'handler' must be callable, not '"
           +:+ type_repr handler +:+ "'")),
      (self, i))) ∧
  (∀ n p e,
     name = PyStr n → pattern = PyStr p → callable handler = true →
     dict_contains (prepare_route_name self n) (_routes self) = false →
     startswith (prepare_route_pattern self p) "/" = true →
     normalize_methods methods = Raise e →
     add_route name pattern handler methods (self, i)
     = (Raise e,
        (self, {| next_oid := S (next_oid i);
                  match_pattern_cache := match_pattern_cache i |})) ∧
     ((∃ m, e = TypeError m) ∨ (∃ m, e = AttributeError m))).
Proof.
  split_and!.
  - intros Hname. exists (type_repr pattern).
    by destruct name.
  - intros Hname Hpattern. destruct name; try discriminate.
    by destruct pattern.
  - intros Hname Hpattern Hhandler.
    destruct name; try discriminate. destruct pattern; try discriminate.
    unfold add_route. by rewrite Hhandler.
  - intros n p e -> -> Hc Hfresh Hslash Hms.
    split; [| by eapply normalize_methods_Raise].
    unfold add_route. rewrite Hc. simpl. st_unfold. simpl.
    rewrite Hfresh, Hslash. simpl. by rewrite Hms.
Qed.

Lemma add_route_type_checks_witness :
  (is_str (PyStr "ok") = true ∧ is_str (PyInt 1) = false ∧
   add_route (PyStr "ok") (PyInt 1) hello_world GET
     (plain_router, after_plain_router)
   = (Raise (RouterError
        "parameter 'pattern' must be a string, not '<class 'int'>'"),
      (plain_router, after_plain_router))) ∧
  (is_str (PyStr "ok") = true ∧ is_str (PyStr "/ok") = true ∧
   callable (PyStr "fail") = false ∧
   add_route (PyStr "ok") (PyStr "/ok") (PyStr "fail") GET
     (plain_router, after_plain_router)
   = (Raise (RouterError
        "parameter 'handler' must be callable, not '<class 'str'>'"),
      (plain_router, after_plain_router))).
Proof.
  split.
  - split_and!; [reflexivity | reflexivity |].
    exact (proj1 (proj2 (add_route_type_checks (PyStr "ok") (PyInt 1)
                           hello_world GET plain_router after_plain_router))
             eq_refl eq_refl).
  - split_and!; [reflexivity | reflexivity | reflexivity |].
    exact (proj1 (proj2 (proj2 (add_route_type_checks (PyStr "ok") (PyStr "/ok")
                           (PyStr "fail") GET plain_router after_plain_router)))
             eq_refl eq_refl eq_refl).
Defined.

(** C7 fails as stated in two ways.  Methods that are not iterable pass
    [add_route]'s checks and surface as a [TypeError] from the construction of
    the Route.  And the error for a name that is not a string reports the type
    of the pattern, here [str], not the type of the name, [int]. *)
Lemma add_route_type_checks_counterexample :
  add_route (PyStr "ok") (PyStr "/ok") hello_world (PyInt 1)
    (plain_router, after_plain_router)
  = (Raise (TypeError "'int' object is not iterable"),
     (plain_router, after_first_route)) ∧
  add_route (PyInt 1) (PyStr "/one") hello_world GET
    (plain_router, after_plain_router)
  = (Raise (RouterError
       "parameter 'name' must be a string, not '<class 'str'>'"),
     (plain_router, after_plain_router)) ∧
  type_repr (PyInt 1) = "<class 'int'>".
Proof. split_and!; reflexivity. Qed.

(** ** Containment *)

Lemma contains_iff self item :
  __contains__ self item = true ↔ ∃ rt, rt ∈ routes self ∧ item = route.ref rt.
Proof.
  unfold __contains__. rewrite existsb_exists. split.
  - intros (rt & Hin%list_elem_of_In & Heq). exists rt. split; [done |].
    unfold route.__eq__ in Heq. destruct item; try discriminate.
    apply bool_decide_eq_true in Heq. unfold route.ref. by rewrite Heq.
  - intros (rt & Hin%list_elem_of_In & ->). exists rt. split; [done |].
    unfold route.__eq__, route.ref. by apply bool_decide_eq_true.
Qed.

(** C8, as amended: [item in router] is true exactly when [item] is, by
    identity, one of the Route objects the router owns.  It is true for the
    Route that [add_route] has just returned; it is false for every string,
    the qualified name of a registered Route included, and false for a Route
    object created apart from the registered ones, whatever its fields. *)
Theorem contains_by_identity :
  (∀ self item,
     __contains__ self item = true
     ↔ ∃ rt, rt ∈ routes self ∧ item = route.ref rt) ∧
  (∀ name pattern handler methods self i rt self' i',
     add_route name pattern handler methods (self, i)
       = (Return rt, (self', i')) →
     __contains__ self' (route.ref rt) = true) ∧
  (∀ self s, __contains__ self (PyStr s) = false) ∧
  (∀ w k self oid',
     reachable w → routers w !! k = Some self →
     (next_oid (interp w) ≤ oid')%nat →
     __contains__ self (PyRoute oid') = false).
Proof.
  split_and!.
  - apply contains_iff.
  - intros name pattern handler methods self i rt self' i' Hadd.
    apply contains_iff. exists rt. split; [| done].
    rewrite (routes_after_add_route _ _ _ _ _ _ _ _ _ Hadd).
    apply elem_of_app. right. apply list_elem_of_here.
  - intros self s. apply not_true_iff_false.
    intros (rt & _ & Heq)%contains_iff. discriminate.
  - intros w k self oid' Hreach Hk Hfresh. apply not_true_iff_false.
    intros (rt & Hin & Heq)%contains_iff. injection Heq as ->.
    apply reachable_inv in Hreach as [Hr _ _].
    apply Hr in Hk as [_ _ _ Hoids _].
    unfold routes, dict_values in Hin.
    apply list_elem_of_fmap in Hin as ([key rt'] & -> & Hin).
    rewrite Forall_forall in Hoids. apply Hoids in Hin. simpl in *. lia.
Qed.

Lemma contains_by_identity_witness :
  (add_route (PyStr "a") (PyStr "/a") hello_world GET
     (plain_router, after_plain_router)
   = (Return a_route, (a_router, after_first_route)) ∧
   __contains__ a_router (route.ref a_route) = true) ∧
  (reachable stale_world ∧ routers stale_world !! 0 = Some a_router ∧
   (next_oid (interp stale_world) ≤ 2)%nat ∧
   __contains__ a_router (PyRoute 2) = false).
Proof.
  split.
  - assert (add_route (PyStr "a") (PyStr "/a") hello_world GET
              (plain_router, after_plain_router)
            = (Return a_route, (a_router, after_first_route))) as H
      by reflexivity.
    split; [exact H |].
    exact (proj1 (proj2 contains_by_identity) _ _ _ _ _ _ _ _ _ H).
  - assert (routers stale_world !! 0 = Some a_router) as H1 by reflexivity.
    assert (next_oid (interp stale_world) ≤ 2)%nat as H2 by (simpl; lia).
    split_and!; [exact stale_world_reachable | exact H1 | exact H2 |].
    exact (proj2 (proj2 (proj2 contains_by_identity)) stale_world 0 a_router 2
             stale_world_reachable H1 H2).
Defined.

(** C8 fails as stated: the router owns a Route whose qualified name is "a",
    yet the name "a" is not in the router, and neither is another Route
    object with the same name and the same fields. *)
Lemma contains_by_name_counterexample :
  add_route (PyStr "a") (PyStr "/a") hello_world GET
    (plain_router, after_plain_router)
  = (Return a_route, (a_router, after_first_route)) ∧
  route.name a_route = "a" ∧
  __contains__ a_router (route.ref a_route) = true ∧
  __contains__ a_router (PyStr "a") = false ∧
  route.name a_route_twin = route.name a_route ∧
  __contains__ a_router (route.ref a_route_twin) = false.
Proof. split_and!; reflexivity. Qed.

(** ** The pattern check and the prefix *)







(** The prefix "/v1" and the pattern "users" give "/v1users". *)
Example v1_users_registered :
  add_route (PyStr "users") (PyStr "users") hello_world GET
    (v1_router, after_plain_router)
  = (Return v1users_route,
     (with_routes v1_router [("users", v1users_route)], after_first_route)).
Proof. reflexivity. Qed.


(** ** The empty string as a fallback *)

Lemma routes_take self n r :
  r ∈ routes (with_routes self (take n (_routes self))) → r ∈ routes self.
Proof.
  unfold routes, dict_values. simpl. rewrite fmap_take.
  apply subseteq_take.
Qed.

Lemma match_pattern_body_empty_fallback self pattern :
  (∀ r, r ∈ routes self → route.pattern r ≠ pattern) →
  match_pattern_body self pattern (Some "") = Return None.
Proof.
  intros Hnone. unfold match_pattern_body.
  rewrite for_route_in_none; [done |].
  intros r Hr. by apply is_pattern_match_false, Hnone.
Qed.

(** C10: the empty string as a fallback is no fallback, in both lookups, in
    every reachable state: [match_name(name, "")] returns no match when the
    name is absent, and [match_pattern(pattern, "")] returns no match when no
    owned route has the pattern, whether the call is answered from the cache
    or not, and whether or not a Route is registered under the empty name.
    Such a Route can exist: a router without a name accepts the empty name. *)
Theorem empty_fallback_is_no_fallback w k self :
  reachable w → routers w !! k = Some self →
  (∀ name,
     dict_get (_routes self) name = None →
     match_name self name (Some "") = Return None) ∧
  (∀ pattern call,
     call_fallback call = Some "" →
     (∀ r, r ∈ routes self → route.pattern r ≠ pattern) →
     (match_pattern self pattern call (interp w)).1 = Return None) ∧
  (router.name self = None →
   ∀ p handler methods ms,
     callable handler = true → normalize_methods methods = Return ms →
     startswith (prepare_route_pattern self p) "/" = true →
     dict_contains "" (_routes self) = false →
     ∃ rt self' i',
       add_route (PyStr "") (PyStr p) handler methods (self, interp w)
         = (Return rt, (self', i')) ∧
       route.name rt = "" ∧
       match_name self' "" None = Return (Some rt) ∧
       ∀ name, name ≠ "" → dict_get (_routes self) name = None →
               match_name self' name (Some "") = Return None).
Proof.
  intros Hreach Hk. split_and!.
  - intros name Habsent. by apply match_name_falsy.
  - intros pattern call Hfb Hnone.
    destruct (functools.cache_get (match_pattern_cache (interp w))
                (make_key (router.oid self) pattern call)) as [v|] eqn:Hget.
    + rewrite (match_pattern_hit _ _ _ _ _ Hget). simpl.
      destruct (cached_result_is_earlier _ _ _ _ _ _ Hreach Hk Hget)
        as [n Hbody].
      rewrite Hfb, match_pattern_body_empty_fallback in Hbody.
      * by injection Hbody as <-.
      * intros r Hin%routes_take. by apply Hnone.
    + rewrite (match_pattern_miss _ _ _ _ None Hget); [done |].
      rewrite Hfb. by apply match_pattern_body_empty_fallback.
  - intros Hname p handler methods ms Hc' Hms Hslash Hfresh.
    assert (prepare_route_name self "" = "") as Hq.
    { unfold prepare_route_name. by rewrite Hname. }
    rewrite <- Hq in Hfresh.
    destruct (add_route_returns self (interp w) "" p handler methods
                ms Hc' Hms Hslash Hfresh) as (rt & self' & i' & Hadd & Hrt).
    rewrite Hq in Hrt.
    exists rt, self', i'. split_and!; [done | done | |].
    + rewrite <- Hrt. by eapply match_name_after_add_route.
    + intros name Hne Habsent. apply match_name_falsy; [| done].
      apply add_route_Return_inv in Hadd
        as (n' & p' & ms' & [= <-] & _ & _ & _ & _ & _ & _ & -> & _).
      simpl. rewrite Hq.
      rewrite <- (dict_setitem_fresh (_routes self) "" rt).
      * by rewrite dict_get_setitem_ne.
      * unfold dict_contains in Hfresh. rewrite Hq in Hfresh.
        by destruct (dict_get _ _).
Qed.

Lemma empty_name_world_reachable : reachable empty_name_world.
Proof.
  exists [NewRouter None None;
          AddRoute 0 (PyStr "") (PyStr "/") hello_world GET].
  reflexivity.
Defined.

(** A router that owns a Route under the empty name. *)
Lemma empty_fallback_is_no_fallback_witness :
  reachable empty_name_world ∧
  routers empty_name_world !! 0 = Some empty_name_router ∧
  dict_get (_routes empty_name_router) "" = Some empty_name_route ∧
  dict_get (_routes empty_name_router) "missing" = None ∧
  call_fallback (Positional (FbKeyword (Some ""))) = Some "" ∧
  match_name empty_name_router "missing" (Some "") = Return None ∧
  (match_pattern empty_name_router "/missing" (Positional (FbKeyword (Some "")))
     (interp empty_name_world)).1 = Return None.
Proof.
  assert (routers empty_name_world !! 0 = Some empty_name_router) as H1
    by reflexivity.
  assert (dict_get (_routes empty_name_router) "missing" = None) as H2
    by reflexivity.
  assert (call_fallback (Positional (FbKeyword (Some ""))) = Some "") as H3 by reflexivity.
  pose proof (empty_fallback_is_no_fallback empty_name_world 0 empty_name_router
                empty_name_world_reachable H1) as (Hname & Hpattern & _).
  split_and!;
    [exact empty_name_world_reachable | exact H1 | reflexivity | exact H2
    | exact H3 | exact (Hname "missing" H2) |].
  apply (Hpattern "/missing" (Positional (FbKeyword (Some ""))) H3).
  intros r Hin. apply list_elem_of_singleton in Hin as ->. discriminate.
Defined.


(** ** Lookup by name, in closed form *)

Lemma match_name_eq self name fallback :
  match_name self name fallback
  = Return match dict_get (_routes self) name with
           | Some route => Some route
           | None =>
               match fallback with
               | Some fb =>
                   if str_truthy fb then dict_get (_routes self) fb else None
               | None => None
               end
           end.
Proof.
  destruct (dict_get (_routes self) name) as [route|] eqn:Hget.
  - by apply match_name_found.
  - destruct fallback as [fb|]; [| by apply match_name_falsy].
    destruct (str_truthy fb) eqn:Hfb; [| by apply match_name_falsy].
    rewrite match_name_retry by done. apply match_name_no_fallback.
Qed.

(** ** Construction of a router *)

(** [Router(name, prefix)] raises exactly when the prefix is a non-empty
    string without a leading slash, and then nothing is allocated; otherwise
    (no prefix, the empty prefix, a prefix with a leading slash) it returns a
    router with a fresh identity that keeps the name and the prefix as given
    and owns nothing: every lookup by name on it finds no match, with or
    without a fallback. *)
Theorem router_init_spec name prefix i :
  (prefix_wf prefix →
   ∃ r,
     router.__init__ name prefix i
       = (Return r, {| next_oid := S (next_oid i);
                       match_pattern_cache := match_pattern_cache i |}) ∧
     router.oid r = next_oid i ∧ router.name r = name ∧
     router.prefix r = prefix ∧ __len__ r = 0 ∧
     ∀ n fallback, match_name r n fallback = Return None) ∧
  (∀ p, prefix = Some p → p ≠ "" → startswith p "/" = false →
     router.__init__ name prefix i
       = (Raise (RouterError
            ("Parameter 'prefix' must start with a leading slash '/' not '"
               +:+ p +:+ "'")), i)).
Proof.
  split.
  - intros Hwf. eexists. split_and!.
    + unfold router.__init__. destruct prefix as [p|]; [| reflexivity].
      assert (str_truthy p && negb (startswith p "/") = false) as Hchk.
      { destruct Hwf as [-> | ->]; [done |]. by rewrite andb_false_r. }
      st_unfold. by rewrite Hchk.
    + done.
    + done.
    + done.
    + done.
    + intros n fallback. rewrite match_name_eq. simpl.
      destruct fallback as [fb|]; [| done]. by destruct (str_truthy fb).
  - intros p -> Hne Hslash. unfold router.__init__, str_truthy.
    apply String.eqb_neq in Hne. st_unfold. by rewrite Hne, Hslash.
Qed.

Lemma router_init_spec_witness :
  (prefix_wf (Some "") ∧
   ∃ r,
     router.__init__ (Some "api") (Some "") boot
       = (Return r, {| next_oid := S (next_oid boot);
                       match_pattern_cache := match_pattern_cache boot |}) ∧
     router.oid r = next_oid boot ∧ router.name r = Some "api" ∧
     router.prefix r = Some "" ∧ __len__ r = 0 ∧
     ∀ n fallback, match_name r n fallback = Return None) ∧
  ("v1" ≠ "" ∧ startswith "v1" "/" = false ∧
   router.__init__ (Some "rest_api") (Some "v1") boot
     = (Raise (RouterError
          ("Parameter 'prefix' must start with a leading slash '/' not '"
             +:+ "v1" +:+ "'")), boot)).
Proof.
  assert (prefix_wf (Some "")) as H1 by (by left).
  assert ("v1" ≠ "") as H2 by discriminate.
  assert (startswith "v1" "/" = false) as H3 by reflexivity.
  split.
  - split; [exact H1 |].
    exact (proj1 (router_init_spec (Some "api") (Some "") boot) H1).
  - split; [exact H2 |]. split; [exact H3 |].
    exact (proj2 (router_init_spec (Some "rest_api") (Some "v1") boot)
             "v1" eq_refl H2 H3).
Defined.

(** ** Construction of a route *)

Lemma upper_each_Return_iff items :
  (∃ tokens, upper_each items = Return tokens)
  ↔ Forall (λ v, is_str v = true) items.
Proof.
  induction items as [|item items IH]; simpl.
  - split; [constructor | by eexists].
  - rewrite Forall_cons, <- IH. unfold mbind, outcome_bind.
    destruct item; simpl;
      try (split; [by intros [tokens [=]] | by intros [[=] _]]).
    destruct (upper_each items) as [tokens|e]; simpl.
    + split; [intros _; split; [done | by eexists] | by eexists].
    + split; [by intros [tokens [=]] | by intros [_ [tokens [=]]]].
Qed.

Lemma normalize_methods_Return_iff methods :
  (∃ ms, normalize_methods methods = Return ms) ↔ iterable_of_str methods.
Proof.
  unfold normalize_methods, iterable_of_str, mbind, outcome_bind.
  destruct methods as [| | |s|l|l| |]; simpl;
    try (split; [by intros [ms [=]] | by intros [(l & [[=] | [=]] & _) | [s [=]]]]).
  - split; [intros _; right; by eexists |]. intros _.
    assert (∃ tokens, upper_each (PyStr <$> str_chars s) = Return tokens)
      as [tokens ->]; [| by eexists].
    apply upper_each_Return_iff. apply Forall_fmap, Forall_true. done.
  - split.
    + intros [ms Hms]. left. exists l. split; [by left |].
      apply upper_each_Return_iff.
      destruct (upper_each l); [by eexists | discriminate].
    + intros [(l' & [[= <-] | [=]] & Hl) | [s [=]]].
      apply upper_each_Return_iff in Hl as [tokens ->]. by eexists.
  - split.
    + intros [ms Hms]. left. exists l. split; [by right |].
      apply upper_each_Return_iff.
      destruct (upper_each l); [by eexists | discriminate].
    + intros [(l' & [[=] | [= <-]] & Hl) | [s [=]]].
      apply upper_each_Return_iff in Hl as [tokens ->]. by eexists.
Qed.

(** [Route(name, pattern, handler, methods)] looks at nothing but the
    methods.  For a list or a tuple of strings, and for a string, it returns
    a Route that holds the name, the pattern (with or without a leading slash)
    and the handler (callable or not) as given.  For [None], a bool, an int, a
    function or a Route as methods it raises a [TypeError]; for a list or a
    tuple with an item that is not a string (so [None], a bool, an int, a list,
    a tuple, a function or a Route) it raises an [AttributeError]. *)
Theorem route_init_spec oid name pattern handler methods :
  (iterable_of_str methods →
   ∃ ms,
     route.__init__ oid name pattern handler methods
     = Return {| route.oid := oid; route._name := name;
                 route._pattern := pattern; route._handler := handler;
                 route._methods := ms |}) ∧
  (not_iterable methods = true →
   ∃ m, route.__init__ oid name pattern handler methods = Raise (TypeError m)) ∧
  (∀ l,
     methods = PyList l ∨ methods = PyTuple l →
     ¬ Forall (λ v, is_str v = true) l →
     ∃ m,
       route.__init__ oid name pattern handler methods
       = Raise (AttributeError m)).
Proof.
  unfold route.__init__, mbind, outcome_bind. split_and!.
  - intros [ms ->]%normalize_methods_Return_iff. by exists ms.
  - intros Hiter. unfold normalize_methods, mbind, outcome_bind.
    destruct methods; try discriminate; simpl; by eexists.
  - intros l Hl Hnot.
    assert (iter methods = Return l) as Hiter by (by destruct Hl as [-> | ->]).
    unfold normalize_methods, mbind, outcome_bind. rewrite Hiter. simpl.
    destruct (upper_each l) as [tokens|e] eqn:Hup.
    + exfalso. apply Hnot, upper_each_Return_iff. by exists tokens.
    + apply upper_each_Raise in Hup as [m ->]. by exists m.
Qed.

Lemma route_init_spec_witness :
  (iterable_of_str (PyTuple [PyStr "get"; PyStr "post"]) ∧
   ∃ ms,
     route.__init__ 0 "test" "no-slash" PyNone
       (PyTuple [PyStr "get"; PyStr "post"])
     = Return {| route.oid := 0; route._name := "test";
                 route._pattern := "no-slash"; route._handler := PyNone;
                 route._methods := ms |}) ∧
  (not_iterable (PyInt 1) = true ∧
   ∃ m, route.__init__ 0 "test" "/test" hello_world (PyInt 1)
        = Raise (TypeError m)) ∧
  (¬ Forall (λ v, is_str v = true) [PyStr "get"; PyInt 1] ∧
   ∃ m, route.__init__ 0 "test" "/test" hello_world
          (PyList [PyStr "get"; PyInt 1]) = Raise (AttributeError m)).
Proof.
  assert (iterable_of_str (PyTuple [PyStr "get"; PyStr "post"])) as H1.
  { left. eexists. split; [by right |]. by repeat constructor. }
  assert (not_iterable (PyInt 1) = true) as H2 by reflexivity.
  assert (¬ Forall (λ v, is_str v = true) [PyStr "get"; PyInt 1]) as H3.
  { intros H. apply Forall_cons in H as [_ H].
    apply Forall_cons in H as [H _]. discriminate. }
  split; [| split].
  - split; [exact H1 |].
    exact (proj1 (route_init_spec 0 "test" "no-slash" PyNone
                    (PyTuple [PyStr "get"; PyStr "post"])) H1).
  - split; [exact H2 |].
    exact (proj1 (proj2 (route_init_spec 0 "test" "/test" hello_world
                           (PyInt 1))) H2).
  - split; [exact H3 |].
    exact (proj2 (proj2 (route_init_spec 0 "test" "/test" hello_world
                           (PyList [PyStr "get"; PyInt 1])))
             [PyStr "get"; PyInt 1] (or_introl eq_refl) H3).
Defined.

(** ** Qualification never makes two names, or two patterns, collide *)

Lemma append_inj_r s a b : s +:+ a = s +:+ b → a = b.
Proof.
  induction s as [|c s IH]; [done |].
  change (String c s +:+ a) with (String c (s +:+ a)).
  change (String c s +:+ b) with (String c (s +:+ b)).
  intros [= H]. by apply IH.
Qed.

(** On one router, different given names get different qualified names, and
    different given patterns get different qualified patterns. *)
Theorem qualification_injective self :
  (∀ n n', prepare_route_name self n = prepare_route_name self n' → n = n') ∧
  (∀ p p',
     prepare_route_pattern self p = prepare_route_pattern self p' → p = p').
Proof.
  split.
  - intros n n'. unfold prepare_route_name.
    destruct (router.name self) as [rn|]; [| done].
    destruct (str_truthy rn); [| done].
    by intros ?%append_inj_r%append_inj_r.
  - intros p p'. unfold prepare_route_pattern.
    destruct (router.prefix self) as [pf|]; [| done].
    destruct (str_truthy pf); [| done]. apply append_inj_r.
Qed.

(** ** When a registration succeeds, and what it does *)

(** [add_route] returns exactly when the name and the pattern are strings,
    the handler is callable, the qualified name is not registered, the
    qualified pattern starts with a slash and the construction of the Route
    accepts the methods (their normalisation returns).  A pattern that is
    already registered under another name is no obstacle. *)
Theorem add_route_returns_iff name pattern handler methods self i :
  (∃ rt s', add_route name pattern handler methods (self, i) = (Return rt, s'))
  ↔ ∃ n p ms,
      name = PyStr n ∧ pattern = PyStr p ∧ callable handler = true ∧
      dict_contains (prepare_route_name self n) (_routes self) = false ∧
      startswith (prepare_route_pattern self p) "/" = true ∧
      normalize_methods methods = Return ms.
Proof.
  split.
  - intros (rt & [self' i'] & Hadd).
    apply add_route_Return_inv in Hadd
      as (n & p & ms & -> & -> & Hc & Hfresh & Hslash & Hms & _).
    exists n, p, ms. split_and!; [done | done | done | | done | done].
    unfold dict_contains. by rewrite Hfresh.
  - intros (n & p & ms & -> & -> & Hc & Hfresh & Hslash & Hms).
    destruct (add_route_returns self i n p handler methods ms Hc Hms Hslash
                Hfresh) as (rt & self' & i' & Hadd & _).
    by exists rt, (self', i').
Qed.

(** A successful [add_route] adds one item, last, under the qualified name;
    it keeps every other item, the router's identity, name and prefix; the
    Route has a fresh identity, the handler as given and the normalised
    methods; and the cache of [match_pattern] is left as it is. *)
Theorem add_route_effects name pattern handler methods self i rt self' i' :
  add_route name pattern handler methods (self, i) = (Return rt, (self', i')) →
  __len__ self' = S (__len__ self) ∧
  items self' = items self ++ [(route.name rt, rt)] ∧
  (∀ k, k ≠ route.name rt →
        dict_get (_routes self') k = dict_get (_routes self) k) ∧
  router.oid self' = router.oid self ∧ router.name self' = router.name self ∧
  router.prefix self' = router.prefix self ∧
  route.oid rt = next_oid i ∧ next_oid i' = S (next_oid i) ∧
  route.handler rt = handler ∧
  normalize_methods methods = Return (route.methods rt) ∧
  match_pattern_cache i' = match_pattern_cache i.
Proof.
  intros (n & p & ms & -> & -> & _ & Hfresh & _ & Hms & Hrt & -> & ->)
    %add_route_Return_inv.
  assert (route.name rt = prepare_route_name self n) as Hname
    by (by rewrite Hrt).
  rewrite Hname. unfold __len__, items. simpl.
  split_and!; try done.
  - rewrite length_app. simpl. lia.
  - intros k Hk.
    rewrite <- (dict_setitem_fresh _ _ rt Hfresh).
    by apply dict_get_setitem_ne.
  - by rewrite Hrt.
  - by rewrite Hrt.
  - by rewrite Hrt.
Qed.

Lemma add_route_effects_witness :
  add_route (PyStr "a") (PyStr "/a") hello_world GET
    (plain_router, after_plain_router)
  = (Return a_route, (a_router, after_first_route)) ∧
  __len__ a_router = S (__len__ plain_router) ∧
  items a_router = items plain_router ++ [(route.name a_route, a_route)].
Proof.
  assert (add_route (PyStr "a") (PyStr "/a") hello_world GET
            (plain_router, after_plain_router)
          = (Return a_route, (a_router, after_first_route))) as H
    by reflexivity.
  split; [exact H |].
  destruct (add_route_effects _ _ _ _ _ _ _ _ _ H) as (H1 & H2 & _).
  split; [exact H1 | exact H2].
Defined.

(** ** The registry only grows *)

Lemma dict_get_app_l {V} (d d' : list (string * V)) k v :
  dict_get d k = Some v → dict_get (d ++ d') k = Some v.
Proof.
  induction d as [|[k0 v0] d IH]; simpl; [done |].
  by destruct (decide (k0 = k)).
Qed.

Lemma for_route_in_app_l is_match l l' rt :
  for_route_in is_match l = Some rt → for_route_in is_match (l ++ l') = Some rt.
Proof.
  induction l as [|r l IH]; simpl; [done |]. by destruct (is_match r).
Qed.

Lemma extends_refl r : extends r r.
Proof. by split_and!. Qed.

Lemma extends_trans r1 r2 r3 : extends r1 r2 → extends r2 r3 → extends r1 r3.
Proof.
  intros (H1 & H2 & H3 & H4) (H1' & H2' & H3' & H4').
  split_and!; [congruence | congruence | congruence | by etrans].
Qed.

Lemma add_route_extends name pattern handler methods self i o self' i' :
  add_route name pattern handler methods (self, i) = (o, (self', i')) →
  extends self self'.
Proof.
  destruct o as [rt|e].
  - intros (n & p & ms & _ & _ & _ & _ & _ & _ & _ & -> & _)%add_route_Return_inv.
    split_and!; [done | done | done |]. by apply prefix_app_r.
  - intros (-> & _)%add_route_Raise_inv. apply extends_refl.
Qed.

Lemma exec_extends w c k r :
  routers w !! k = Some r →
  ∃ r', routers (exec w c) !! k = Some r' ∧ extends r r'.
Proof.
  intros Hk.
  assert (∃ r', routers w !! k = Some r' ∧ extends r r') as Hsame
    by (exists r; split; [done | apply extends_refl]).
  destruct c as [name prefix| | j name pattern handler methods
                | j pattern fallback | | | | |]; simpl; try done.
  - destruct (router.__init__ name prefix (interp w)) as [[r0|e] i']; simpl;
      [| done].
    exists r. split; [by apply lookup_app_l_Some | apply extends_refl].
  - destruct (routers w !! j) as [rj|] eqn:Hj; [| done]. simpl.
    destruct (add_route name pattern handler methods (rj, interp w))
      as [o [r' i']] eqn:Hadd. simpl.
    destruct (decide (k = j)) as [->|Hne].
    + exists r'. split.
      * apply list_lookup_insert_eq. by eapply lookup_lt_Some.
      * assert (rj = r) as -> by congruence. by eapply add_route_extends.
    + exists r. split; [by rewrite list_lookup_insert_ne | apply extends_refl].
  - by destruct (routers w !! j).
Qed.

Lemma foldl_exec_extends calls w k r :
  routers w !! k = Some r →
  ∃ r', routers (foldl exec w calls) !! k = Some r' ∧ extends r r'.
Proof.
  revert w r. induction calls as [|c calls IH]; simpl; intros w r Hk.
  - exists r. split; [done | apply extends_refl].
  - destruct (exec_extends w c k r Hk) as (r1 & Hk1 & Hext1).
    destruct (IH _ _ Hk1) as (r2 & Hk2 & Hext2).
    exists r2. split; [done | by eapply extends_trans].
Qed.

(** Whatever a program calls next, a router stays in place with its name and
    prefix, its items stay and stay first, a name that [match_name] finds
    keeps giving the same Route, and a pattern that has a match keeps giving
    the same first match to the lookup that [lru_cache] wraps, hence to every
    call of [match_pattern] that is not answered from the cache, also when
    routes with the same pattern are registered later.  (A call answered from
    the cache can still return a result memoised before the match was
    registered.) *)
Theorem registry_append_only w calls k r :
  routers w !! k = Some r →
  ∃ r',
    routers (foldl exec w calls) !! k = Some r' ∧
    router.name r' = router.name r ∧ router.prefix r' = router.prefix r ∧
    (∃ later, items r' = items r ++ later) ∧
    (__len__ r ≤ __len__ r')%nat ∧
    (∀ name rt fallback,
       match_name r name None = Return (Some rt) →
       match_name r' name fallback = Return (Some rt)) ∧
    (∀ pattern rt fallback,
       for_route_in (is_pattern_match r pattern) (routes r) = Some rt →
       match_pattern_body r' pattern fallback = Return (Some rt)) ∧
    (∀ pattern rt call i,
       for_route_in (is_pattern_match r pattern) (routes r) = Some rt →
       functools.cache_get (match_pattern_cache i)
         (make_key (router.oid r') pattern call) = None →
       (match_pattern r' pattern call i).1 = Return (Some rt)).
Proof.
  intros Hk.
  destruct (foldl_exec_extends calls w k r Hk)
    as (r' & Hk' & _ & Hname & Hprefix & later & Hroutes).
  assert (∀ pattern rt fallback,
    for_route_in (is_pattern_match r pattern) (routes r) = Some rt →
    match_pattern_body r' pattern fallback = Return (Some rt)) as Hbody.
  { intros pattern rt fallback Hfound. unfold match_pattern_body, routes,
      dict_values. rewrite Hroutes, fmap_app.
    by rewrite (for_route_in_app_l _ _ _ rt Hfound). }
  exists r'. unfold __len__, items. rewrite Hroutes.
  split_and!; [done | done | done | by exists later | | | exact Hbody |].
  - rewrite length_app. lia.
  - intros name rt fallback Hfound.
    rewrite match_name_no_fallback in Hfound. injection Hfound as Hfound.
    apply match_name_found. rewrite Hroutes. by apply dict_get_app_l.
  - intros pattern rt call i Hfound Hmiss.
    by rewrite (match_pattern_miss _ _ _ _ (Some rt) Hmiss
                  (Hbody _ _ _ Hfound)).
Qed.

Lemma registry_append_only_witness :
  routers stale_world !! 0 = Some a_router ∧
  ∃ r',
    routers (foldl exec stale_world
               [AddRoute 0 (PyStr "b") (PyStr "/a") hello_world GET]) !! 0
      = Some r' ∧
    router.name r' = router.name a_router ∧
    router.prefix r' = router.prefix a_router ∧
    (∃ later, items r' = items a_router ++ later) ∧
    (__len__ a_router ≤ __len__ r')%nat ∧
    (∀ name rt fallback,
       match_name a_router name None = Return (Some rt) →
       match_name r' name fallback = Return (Some rt)) ∧
    (∀ pattern rt fallback,
       for_route_in (is_pattern_match a_router pattern) (routes a_router)
         = Some rt →
       match_pattern_body r' pattern fallback = Return (Some rt)) ∧
    (∀ pattern rt call i,
       for_route_in (is_pattern_match a_router pattern) (routes a_router)
         = Some rt →
       functools.cache_get (match_pattern_cache i)
         (make_key (router.oid r') pattern call) = None →
       (match_pattern r' pattern call i).1 = Return (Some rt)).
Proof.
  assert (routers stale_world !! 0 = Some a_router) as H by reflexivity.
  split; [exact H |].
  exact (registry_append_only stale_world
           [AddRoute 0 (PyStr "b") (PyStr "/a") hello_world GET] 0 a_router H).
Defined.

(** ** More invariants of the reachable states *)

Lemma route_wf_with_routes r d rt : route_wf r rt → route_wf (with_routes r d) rt.
Proof. by intros [H1 H2 H3 H4]. Qed.

Lemma registered_route_wf self i n p handler ms :
  callable handler = true →
  startswith (prepare_route_pattern self p) "/" = true →
  route_wf self (registered_route self i n p handler ms).
Proof.
  intros Hc Hslash. split; simpl; [done | by exists n | by exists p | done].
Qed.

Lemma cache_get_None_keys {K V} `{EqDecision K} (c : list (K * V)) k :
  functools.cache_get c k = None → k ∉ c.*1.
Proof.
  induction c as [|[k' v'] c IH]; simpl; [intros _; apply not_elem_of_nil |].
  destruct (decide (k' = k)); [done |].
  intros H%IH. apply not_elem_of_cons. by split.
Qed.

Lemma cache_hit_bounds {K V} `{EqDecision K} (c : list (K * V)) k v :
  functools.cache_get c k = Some v → NoDup c.*1 →
  (length (functools.cache_hit k v c) ≤ length c)%nat ∧
  NoDup (functools.cache_hit k v c).*1.
Proof.
  intros Hget%cache_get_Some_elem Hnd. unfold functools.cache_hit. simpl. split.
  - pose proof (length_filter_lt (λ e : K * V, e.1 ≠ k) c (k, v) Hget) as Hlt.
    simpl in Hlt. assert (¬ k ≠ k) as Hk by (by intros ?). specialize (Hlt Hk).
    lia.
  - apply NoDup_cons. split.
    + intros ([k' v'] & -> & [Hne _]%list_elem_of_filter)%list_elem_of_fmap.
      by apply Hne.
    + eapply sublist_NoDup; [exact Hnd |]. apply fmap_sublist, sublist_filter.
Qed.

Lemma cache_miss_bounds {K V} `{EqDecision K} (c : list (K * V)) k v :
  functools.cache_get c k = None → NoDup c.*1 →
  (length (functools.cache_miss k v c) ≤ functools.maxsize)%nat ∧
  NoDup (functools.cache_miss k v c).*1.
Proof.
  intros Hget%cache_get_None_keys Hnd. unfold functools.cache_miss. split.
  - rewrite length_take. lia.
  - eapply (sublist_NoDup _ ((k, v) :: c).*1).
    + simpl. by apply NoDup_cons.
    + apply fmap_sublist, sublist_take.
Qed.

Lemma world_inv_more_init : world_inv_more init.
Proof.
  split; simpl.
  - intros k r rt H. by rewrite lookup_nil in H.
  - intros k k' r r' rt rt' H. by rewrite lookup_nil in H.
  - lia.
  - constructor.
Qed.

Lemma world_inv_more_NewRouter w name prefix :
  world_inv_more w → world_inv_more (exec w (NewRouter name prefix)).
Proof.
  intros [Hr Ho Hs Hk]. simpl.
  destruct (router.__init__ name prefix (interp w)) as [[r|e] i'] eqn:Hinit.
  - apply router_init_Return in Hinit as (-> & -> & _). split; simpl;
      [| | done | done].
    + intros k r rt [[_ Hl] | [-> <-]]%lookup_snoc_Some Hin; [by eapply Hr |].
      by apply elem_of_nil in Hin.
    + intros k k' r r' rt rt' [[_ Hl] | [-> <-]]%lookup_snoc_Some
        [[_ Hl'] | [-> <-]]%lookup_snoc_Some Hin Hin'.
      * by eapply Ho.
      * by apply elem_of_nil in Hin'.
      * by apply elem_of_nil in Hin.
      * by apply elem_of_nil in Hin.
  - apply router_init_Raise in Hinit as ->. by split.
Qed.

Lemma world_inv_more_AddRoute w k name pattern handler methods :
  world_inv w → world_inv_more w →
  world_inv_more (exec w (AddRoute k name pattern handler methods)).
Proof.
  intros Hw Hm. simpl. destruct (routers w !! k) as [r|] eqn:Hk; [| done].
  destruct Hm as [Hr Ho Hs Hkeys]. destruct Hw as [Hwf _ _].
  destruct (add_route name pattern handler methods (r, interp w))
    as [[rt|e] [r' i']] eqn:Hadd; simpl.
  - apply add_route_Return_inv in Hadd
      as (n & p & ms & -> & -> & Hc & Hfresh & Hslash & Hms & Hrt & -> & ->).
    set (q := prepare_route_name r n).
    assert (∀ j x rt0,
      <[k:=with_routes r (_routes r ++ [(q, rt)])]> (routers w) !! j = Some x →
      rt0 ∈ routes x →
      (∃ y, routers w !! j = Some y ∧ rt0 ∈ routes y ∧
            (route_wf y rt0 → route_wf x rt0)) ∨
      (j = k ∧ rt0 = rt ∧ x = with_routes r (_routes r ++ [(q, rt)])))
      as Hlook.
    { intros j x rt0 Hj Hin. destruct (decide (j = k)) as [->|Hne].
      - rewrite list_lookup_insert_eq in Hj by (by eapply lookup_lt_Some).
        injection Hj as <-. unfold routes, dict_values in Hin. simpl in Hin.
        rewrite fmap_app in Hin.
        apply elem_of_app in Hin as [Hin | ->%list_elem_of_singleton].
        + left. exists r. split_and!; [done | done |].
          apply route_wf_with_routes.
        + by right.
      - rewrite list_lookup_insert_ne in Hj by done. left. by exists x. }
    assert (∀ j y rt0, routers w !! j = Some y → rt0 ∈ routes y →
                       (route.oid rt0 < next_oid (interp w))%nat) as Hold.
    { intros j y rt0 Hj Hin. apply Hwf in Hj as [_ _ _ Hoids _].
      unfold routes, dict_values in Hin.
      apply list_elem_of_fmap in Hin as ([key rt1] & -> & Hin).
      rewrite Forall_forall in Hoids. by apply Hoids in Hin. }
    assert (route.oid rt = next_oid (interp w)) as Hnew by (by rewrite Hrt).
    split; simpl; [| | done | done].
    + intros j x rt0 Hj Hin.
      destruct (Hlook j x rt0 Hj Hin)
        as [(y & Hy & Hiny & Himp) | (-> & -> & ->)].
      * by apply Himp, (Hr j).
      * apply route_wf_with_routes. rewrite Hrt.
        by eapply registered_route_wf.
    + intros j j' x x' rt1 rt2 Hj Hj' Hin Hin' Heq.
      destruct (Hlook j x rt1 Hj Hin)
        as [(y & Hy & Hiny & _) | (-> & -> & _)];
        destruct (Hlook j' x' rt2 Hj' Hin')
          as [(y' & Hy' & Hiny' & _) | (-> & -> & _)].
      * by eapply Ho.
      * pose proof (Hold _ _ _ Hy Hiny). lia.
      * pose proof (Hold _ _ _ Hy' Hiny'). lia.
      * done.
  - apply add_route_Raise_inv in Hadd as (-> & Hcache & _).
    rewrite list_insert_id by done. split; simpl; [done | done | |];
      by rewrite Hcache.
Qed.

Lemma world_inv_more_MatchPattern w k pattern call :
  world_inv_more w → world_inv_more (exec w (MatchPattern k pattern call)).
Proof.
  intros Hm. simpl. destruct (routers w !! k) as [r|] eqn:Hk; [| done].
  destruct Hm as [Hr Ho Hs Hkeys].
  destruct (functools.cache_get (match_pattern_cache (interp w))
              (make_key (router.oid r) pattern call)) as [v|] eqn:Hget.
  - rewrite (match_pattern_hit _ _ _ _ _ Hget).
    destruct (cache_hit_bounds _ _ _ Hget Hkeys) as [Hlen Hnd].
    split; [done | done | etrans; [exact Hlen | exact Hs] | exact Hnd].
  - destruct (match_pattern_body_returns r pattern (call_fallback call))
      as [v Hv].
    rewrite (match_pattern_miss _ _ _ _ _ Hget Hv).
    destruct (cache_miss_bounds _ (make_key (router.oid r) pattern call) v Hget Hkeys)
      as [Hlen Hnd].
    split; [done | done | exact Hlen | exact Hnd].
Qed.

Lemma world_inv_more_exec w c :
  world_inv w → world_inv_more w → world_inv_more (exec w c).
Proof.
  intros Hw Hm. destruct c.
  - by apply world_inv_more_NewRouter.
  - by destruct Hm.
  - by apply world_inv_more_AddRoute.
  - by apply world_inv_more_MatchPattern.
  - done.
  - done.
  - done.
  - done.
  - destruct Hm as [Hr Ho _ _]. split; simpl; [done | done | lia | constructor].
Qed.

Lemma reachable_inv_more w : reachable w → world_inv_more w.
Proof.
  intros [calls <-]. induction calls as [|c calls IH] using rev_ind.
  - apply world_inv_more_init.
  - rewrite run_snoc. apply world_inv_more_exec; [| done].
    apply reachable_inv. by exists calls.
Qed.

(** ** What holds of every owned route *)

(** In every reachable state, each item [(key, route)] of a router is found
    again: the key is the Route's name, [match_name] on the key returns the
    Route whatever the fallback, the Route is in the router, and a lookup of
    the Route's pattern finds a Route with that pattern (the first one
    registered with it). *)
Theorem owned_route_lookup w k self key rt :
  reachable w → routers w !! k = Some self → (key, rt) ∈ items self →
  route.name rt = key ∧
  (∀ fallback, match_name self key fallback = Return (Some rt)) ∧
  __contains__ self (route.ref rt) = true ∧
  (∀ fallback,
     ∃ rt', match_pattern_body self (route.pattern rt) fallback
              = Return (Some rt') ∧
            route.pattern rt' = route.pattern rt).
Proof.
  intros [Hr _ _]%reachable_inv Hk Hin. unfold items in Hin.
  apply Hr in Hk as [_ Hkeys Hnames _ _].
  assert (rt ∈ routes self) as Hrt.
  { unfold routes, dict_values. apply list_elem_of_fmap. by exists (key, rt). }
  split_and!.
  - rewrite Forall_forall in Hnames. by apply Hnames in Hin.
  - intros fallback. apply match_name_found. by apply dict_get_elem.
  - apply contains_iff. by exists rt.
  - intros fallback. unfold match_pattern_body.
    destruct (for_route_in (is_pattern_match self (route.pattern rt))
                (routes self)) as [rt'|] eqn:Hloop.
    + exists rt'. split; [done |]. clear Hrt.
      induction (routes self) as [|r0 l IH]; simpl in Hloop; [done |].
      destruct (is_pattern_match self (route.pattern rt) r0) eqn:Hm;
        [| by apply IH].
      injection Hloop as <-. by apply is_pattern_match_true in Hm.
    + exfalso. clear Hin. induction (routes self) as [|r0 l IH];
        [by apply elem_of_nil in Hrt |].
      simpl in Hloop.
      destruct (is_pattern_match self (route.pattern rt) r0) eqn:Hm;
        [done |].
      apply elem_of_cons in Hrt as [-> | Hrt]; [| by apply IH].
      by apply is_pattern_match_false in Hm.
Qed.

Lemma owned_route_lookup_witness :
  reachable stale_world ∧ routers stale_world !! 0 = Some a_router ∧
  ("a", a_route) ∈ items a_router ∧
  route.name a_route = "a" ∧
  (∀ fallback, match_name a_router "a" fallback = Return (Some a_route)) ∧
  __contains__ a_router (route.ref a_route) = true ∧
  (∀ fallback,
     ∃ rt', match_pattern_body a_router (route.pattern a_route) fallback
              = Return (Some rt') ∧
            route.pattern rt' = route.pattern a_route).
Proof.
  assert (routers stale_world !! 0 = Some a_router) as H1 by reflexivity.
  assert (("a", a_route) ∈ items a_router) as H2 by apply list_elem_of_here.
  split; [exact stale_world_reachable |]. split; [exact H1 |].
  split; [exact H2 |].
  exact (owned_route_lookup stale_world 0 a_router "a" a_route
           stale_world_reachable H1 H2).
Defined.

(** In every reachable state, the pattern of each owned Route starts with a
    slash and with the router's prefix, and its name starts with the router's
    name and a dot when the router has a non-empty name. *)
Theorem owned_routes_qualified w k self rt :
  reachable w → routers w !! k = Some self → rt ∈ routes self →
  startswith (route.pattern rt) "/" = true ∧
  (∀ pf, router.prefix self = Some pf → ∃ p, route.pattern rt = pf +:+ p) ∧
  (∀ rn, router.name self = Some rn → rn ≠ "" →
         ∃ n, route.name rt = rn +:+ "." +:+ n).
Proof.
  intros [Hr _ _ _]%reachable_inv_more Hk Hin.
  destruct (Hr _ _ _ Hk Hin) as [Hslash [n Hn] [p Hp] _].
  split_and!; [done | |].
  - intros pf Hpf. exists p.
    by rewrite Hp, prepare_route_pattern_qualified, Hpf.
  - intros rn Hrn Hne. exists n.
    rewrite Hn, prepare_route_name_qualified, Hrn. by rewrite decide_False.
Qed.

Lemma owned_routes_qualified_witness :
  reachable (run [NewRouter (Some "rest_api") (Some "/v1");
                  AddRoute 0 (PyStr "users") (PyStr "/users") hello_world GET]) ∧
  routers (run [NewRouter (Some "rest_api") (Some "/v1");
                AddRoute 0 (PyStr "users") (PyStr "/users") hello_world GET])
    !! 0 = Some (with_routes api_router [("rest_api.users", users_route)]) ∧
  users_route ∈ routes (with_routes api_router [("rest_api.users", users_route)]) ∧
  startswith (route.pattern users_route) "/" = true ∧
  (∀ pf, router.prefix (with_routes api_router [("rest_api.users", users_route)])
           = Some pf → ∃ p, route.pattern users_route = pf +:+ p) ∧
  (∀ rn, router.name (with_routes api_router [("rest_api.users", users_route)])
           = Some rn → rn ≠ "" →
         ∃ n, route.name users_route = rn +:+ "." +:+ n).
Proof.
  assert (reachable (run [NewRouter (Some "rest_api") (Some "/v1");
            AddRoute 0 (PyStr "users") (PyStr "/users") hello_world GET]))
    as H0 by (by eexists).
  assert (routers (run [NewRouter (Some "rest_api") (Some "/v1");
            AddRoute 0 (PyStr "users") (PyStr "/users") hello_world GET])
            !! 0 = Some (with_routes api_router [("rest_api.users", users_route)]))
    as H1 by reflexivity.
  assert (users_route
            ∈ routes (with_routes api_router [("rest_api.users", users_route)]))
    as H2 by apply list_elem_of_here.
  split; [exact H0 |]. split; [exact H1 |]. split; [exact H2 |].
  exact (owned_routes_qualified _ 0 _ users_route H0 H1 H2).
Defined.

(** In every reachable state, the handler of each owned Route is callable. *)
Theorem owned_routes_handler_callable w k self rt :
  reachable w → routers w !! k = Some self → rt ∈ routes self →
  callable (route.handler rt) = true.
Proof.
  intros [Hr _ _ _]%reachable_inv_more Hk Hin.
  by destruct (Hr _ _ _ Hk Hin) as [_ _ _ Hhandler].
Qed.

Lemma owned_routes_handler_callable_witness :
  reachable stale_world ∧ routers stale_world !! 0 = Some a_router ∧
  a_route ∈ routes a_router ∧
  callable (route.handler a_route) = true.
Proof.
  assert (routers stale_world !! 0 = Some a_router) as H1 by reflexivity.
  assert (a_route ∈ routes a_router) as H2 by apply list_elem_of_here.
  split; [exact stale_world_reachable |]. split; [exact H1 |].
  split; [exact H2 |].
  exact (owned_routes_handler_callable stale_world 0 a_router a_route
           stale_world_reachable H1 H2).
Defined.

(** In every reachable state, a Route object is owned by one router only:
    a Route of the router at [k] is in the router at [k'] exactly when the two
    are the same router; and the routes of one router have different
    identities. *)
Theorem route_owned_once w k k' r r' rt :
  reachable w → routers w !! k = Some r → routers w !! k' = Some r' →
  rt ∈ routes r →
  (__contains__ r' (route.ref rt) = true ↔ k' = k) ∧
  (∀ rt', rt' ∈ routes r → route.oid rt' = route.oid rt → rt' = rt).
Proof.
  intros [_ Ho _ _]%reachable_inv_more Hk Hk' Hin. split.
  - rewrite contains_iff. split.
    + intros (rt' & Hin' & [= Heq]).
      by destruct (Ho _ _ _ _ _ _ Hk Hk' Hin Hin' Heq) as [-> _].
    + intros ->. exists rt. split; [| done].
      by assert (r' = r) as -> by congruence.
  - intros rt' Hin' Heq.
    by destruct (Ho _ _ _ _ _ _ Hk Hk Hin' Hin Heq) as [_ ->].
Qed.

Lemma two_routers_reachable : reachable two_routers.
Proof.
  exists [NewRouter None None; NewRouter (Some "b") None;
          AddRoute 0 (PyStr "a") (PyStr "/a") hello_world GET;
          AddRoute 1 (PyStr "a") (PyStr "/a") hello_world GET].
  reflexivity.
Defined.

Lemma route_owned_once_witness :
  reachable two_routers ∧ routers two_routers !! 0 = Some first_router ∧
  routers two_routers !! 1 = Some second_router ∧
  first_a_route ∈ routes first_router ∧
  (__contains__ second_router (route.ref first_a_route) = true ↔ 1 = 0) ∧
  (∀ rt', rt' ∈ routes first_router →
          route.oid rt' = route.oid first_a_route → rt' = first_a_route).
Proof.
  assert (routers two_routers !! 0 = Some first_router) as H1 by reflexivity.
  assert (routers two_routers !! 1 = Some second_router) as H2 by reflexivity.
  assert (first_a_route ∈ routes first_router) as H3
    by apply list_elem_of_here.
  split; [exact two_routers_reachable |]. split; [exact H1 |].
  split; [exact H2 |]. split; [exact H3 |].
  exact (route_owned_once two_routers 0 1 first_router second_router
           first_a_route two_routers_reachable H1 H2 H3).
Defined.

(** ** The cache of match_pattern *)

(** In every reachable state the cache of [match_pattern] holds at most 128
    results, under keys that are all different. *)
Theorem match_pattern_cache_bounded w :
  reachable w →
  (length (match_pattern_cache (interp w)) ≤ 128)%nat ∧
  NoDup (match_pattern_cache (interp w)).*1.
Proof.
  intros [_ _ Hsize Hkeys]%reachable_inv_more. split; [exact Hsize | exact Hkeys].
Qed.

Lemma match_pattern_cache_bounded_witness :
  reachable stale_world ∧
  (length (match_pattern_cache (interp stale_world)) ≤ 128)%nat ∧
  NoDup (match_pattern_cache (interp stale_world)).*1.
Proof.
  split; [exact stale_world_reachable |].
  exact (match_pattern_cache_bounded stale_world stale_world_reachable).
Defined.

Lemma filter_all {A} (P : A → Prop) `{∀ x, Decision (P x)} (l : list A) :
  Forall P l → filter P l = l.
Proof.
  induction 1 as [|x l Hx _ IH]; [done |].
  by rewrite filter_cons_True, IH.
Qed.

Lemma cache_hit_hit {K V} `{EqDecision K} (c : list (K * V)) k v :
  functools.cache_hit k v (functools.cache_hit k v c) = functools.cache_hit k v c.
Proof.
  unfold functools.cache_hit. f_equal.
  rewrite filter_cons_False by (simpl; by intros ?).
  apply filter_all, Forall_forall. by intros e [He _]%list_elem_of_filter.
Qed.

Lemma cache_hit_miss {K V} `{EqDecision K} (c : list (K * V)) k v :
  functools.cache_get c k = None →
  functools.cache_hit k v (functools.cache_miss k v c) = functools.cache_miss k v c.
Proof.
  intros Hnone%cache_get_None_keys.
  unfold functools.cache_hit, functools.cache_miss, functools.maxsize.
  change (take 128 ((k, v) :: c)) with ((k, v) :: take 127 c). f_equal.
  rewrite filter_cons_False by (simpl; by intros ?).
  apply filter_all, Forall_forall. intros e He Heq.
  apply Hnone, list_elem_of_fmap. exists e. split; [done |].
  by eapply (subseteq_take 127).
Qed.

(** A call of [match_pattern] repeated at once with the same arguments returns
    the same result and leaves the cache as the first call left it. *)
Theorem match_pattern_repeat self pattern call i :
  match_pattern self pattern call
    (match_pattern self pattern call i).2
  = match_pattern self pattern call i.
Proof.
  destruct (functools.cache_get (match_pattern_cache i)
              (make_key (router.oid self) pattern call)) as [v|] eqn:Hget.
  - rewrite (match_pattern_hit _ _ _ _ _ Hget). simpl.
    rewrite (match_pattern_hit _ _ _ _ v).
    + simpl. by rewrite cache_hit_hit.
    + simpl. by rewrite decide_True.
  - destruct (match_pattern_body_returns self pattern (call_fallback call))
      as [v Hv].
    rewrite (match_pattern_miss _ _ _ _ _ Hget Hv). simpl.
    rewrite (match_pattern_hit _ _ _ _ v).
    + simpl. by rewrite cache_hit_miss.
    + simpl. by rewrite decide_True.
Qed.

Lemma for_route_in_Some is_match l rt :
  for_route_in is_match l = Some rt → rt ∈ l ∧ is_match rt = true.
Proof.
  induction l as [|r l IH]; simpl; [done |].
  destruct (is_match r) eqn:Hm.
  - intros [= <-]. split; [apply list_elem_of_here | done].
  - intros [Hin Hrt]%IH. split; [by apply list_elem_of_further | done].
Qed.

Lemma for_route_in_None is_match l r :
  for_route_in is_match l = None → r ∈ l → is_match r = false.
Proof.
  induction l as [|r0 l IH]; simpl; [by intros _ ?%elem_of_nil |].
  destruct (is_match r0) eqn:Hm; [done |].
  intros Hnone [-> | Hin]%elem_of_cons; [done | by apply IH].
Qed.

Lemma match_pattern_body_earlier self n pattern fallback rt :
  Forall (λ kv, route.name kv.2 = kv.1) (_routes self) →
  match_pattern_body (with_routes self (take n (_routes self))) pattern fallback
    = Return (Some rt) →
  rt ∈ routes self ∧
  (route.pattern rt = pattern ∨
   ∃ fb, fallback = Some fb ∧ fb ≠ "" ∧ route.name rt = fb) ∧
  (route.pattern rt = pattern →
   match_pattern_body self pattern fallback = Return (Some rt)).
Proof.
  intros Hnames. unfold match_pattern_body.
  assert (routes (with_routes self (take n (_routes self)))
          = take n (routes self)) as ->.
  { unfold routes, dict_values. simpl. by rewrite fmap_take. }
  assert (is_pattern_match (with_routes self (take n (_routes self))) pattern
          = is_pattern_match self pattern) as -> by done.
  destruct (for_route_in (is_pattern_match self pattern) (take n (routes self)))
    as [rt0|] eqn:Hloop.
  - intros [= ->].
    pose proof (for_route_in_Some _ _ _ Hloop) as [Hin Hm].
    apply is_pattern_match_true in Hm.
    assert (for_route_in (is_pattern_match self pattern) (routes self)
            = Some rt) as Hfull.
    { rewrite <- (take_drop n (routes self)). by apply for_route_in_app_l. }
    split_and!; [by eapply subseteq_take | by left | by rewrite Hfull].
  - destruct fallback as [fb|]; [| done].
    destruct (str_truthy fb) eqn:Hfb; [| done].
    rewrite match_name_no_fallback. simpl. intros [= Hget].
    apply dict_get_Some_elem in Hget.
    assert ((fb, rt) ∈ _routes self) as Hin by (by eapply subseteq_take).
    assert (rt ∈ take n (routes self)) as Hearly.
    { unfold routes, dict_values. rewrite <- fmap_take.
      apply list_elem_of_fmap. by exists (fb, rt). }
    split_and!.
    + by eapply subseteq_take.
    + right. exists fb. split_and!; [done | |].
      * intros ->. discriminate.
      * rewrite Forall_forall in Hnames. by apply Hnames in Hin.
    + intros Hp. apply (for_route_in_None _ _ _ Hloop) in Hearly.
      by apply is_pattern_match_false in Hearly.
Qed.

(** In every reachable state, a Route that [match_pattern] returns, from the
    cache or not, is owned by the router, and it has the pattern asked for or
    its name is the non-empty fallback; and when it has the pattern asked
    for, it is what the lookup computes now: a memoised match by pattern is
    never out of date. *)
Theorem match_pattern_result_owned w k self pattern call rt :
  reachable w → routers w !! k = Some self →
  (match_pattern self pattern call (interp w)).1 = Return (Some rt) →
  rt ∈ routes self ∧
  (route.pattern rt = pattern ∨
   ∃ fb, call_fallback call = Some fb ∧ fb ≠ "" ∧ route.name rt = fb) ∧
  (route.pattern rt = pattern →
   match_pattern_body self pattern (call_fallback call)
     = Return (Some rt)).
Proof.
  intros Hreach Hk Hres.
  pose proof (reachable_inv w Hreach) as [Hr _ _].
  pose proof (Hr _ _ Hk) as [_ _ Hnames _ _].
  assert (∃ n, match_pattern_body (with_routes self (take n (_routes self)))
                 pattern (call_fallback call) = Return (Some rt))
    as [n Hbody].
  { destruct (functools.cache_get (match_pattern_cache (interp w))
                (make_key (router.oid self) pattern call)) as [v|] eqn:Hget.
    - rewrite (match_pattern_hit _ _ _ _ _ Hget) in Hres. simpl in Hres.
      injection Hres as ->. by eapply cached_result_is_earlier.
    - destruct (match_pattern_body_returns self pattern
                  (call_fallback call)) as [v Hv].
      rewrite (match_pattern_miss _ _ _ _ _ Hget Hv) in Hres. simpl in Hres.
      injection Hres as ->. exists (length (_routes self)).
      by rewrite firstn_all, with_routes_id. }
  by eapply match_pattern_body_earlier.
Qed.

Lemma match_pattern_result_owned_witness :
  reachable stale_world ∧ routers stale_world !! 0 = Some a_router ∧
  (match_pattern a_router "/a" (Positional (FbPositional None)) (interp stale_world)).1
    = Return (Some a_route) ∧
  a_route ∈ routes a_router ∧
  (route.pattern a_route = "/a" ∨
   ∃ fb, call_fallback (Positional (FbPositional None)) = Some fb ∧ fb ≠ "" ∧
         route.name a_route = fb) ∧
  (route.pattern a_route = "/a" →
   match_pattern_body a_router "/a" (call_fallback (Positional (FbPositional None)))
     = Return (Some a_route)).
Proof.
  assert (routers stale_world !! 0 = Some a_router) as H1 by reflexivity.
  assert ((match_pattern a_router "/a" (Positional (FbPositional None))
             (interp stale_world)).1 = Return (Some a_route)) as H2
    by reflexivity.
  split; [exact stale_world_reachable |]. split; [exact H1 |].
  split; [exact H2 |].
  exact (match_pattern_result_owned stale_world 0 a_router "/a"
           (Positional (FbPositional None)) a_route stale_world_reachable H1 H2).
Defined.

(** ** What a lookup by name returns *)

(** In every reachable state, a Route that [match_name] returns is owned by
    the router and bears the name asked for, or, when that name is not
    registered, the non-empty fallback; and [match_name] returns no match
    exactly when the name is not registered and the fallback is missing, empty
    or not registered either. *)
Theorem match_name_result w k self name fallback :
  reachable w → routers w !! k = Some self →
  (∀ rt,
     match_name self name fallback = Return (Some rt) →
     rt ∈ routes self ∧
     (route.name rt = name ∨
      dict_contains name (_routes self) = false ∧
      ∃ fb, fallback = Some fb ∧ fb ≠ "" ∧ route.name rt = fb)) ∧
  (match_name self name fallback = Return None
   ↔ dict_contains name (_routes self) = false ∧
     ∀ fb, fallback = Some fb → fb ≠ "" →
           dict_contains fb (_routes self) = false).
Proof.
  intros [Hr _ _]%reachable_inv Hk.
  apply Hr in Hk as [_ _ Hnames _ _]. rewrite Forall_forall in Hnames.
  assert (∀ key rt, dict_get (_routes self) key = Some rt →
                    rt ∈ routes self ∧ route.name rt = key) as Hget.
  { intros key rt Hin%dict_get_Some_elem. split; [| by apply Hnames in Hin].
    unfold routes, dict_values. apply list_elem_of_fmap. by exists (key, rt). }
  rewrite match_name_eq. unfold dict_contains.
  destruct (dict_get (_routes self) name) as [rt0|] eqn:Hname.
  - split.
    + intros rt [= <-]. destruct (Hget _ _ Hname). split; [done | by left].
    + split; [done | by intros [[=] _]].
  - destruct fallback as [fb|]; [| split; [done | split; [done | by intros [? _]]]].
    destruct (decide (fb = "")) as [->|Hne].
    + split; [done |]. split; [| done]. intros _. split; [done |].
      by intros fb [= <-].
    + assert (str_truthy fb = true) as ->.
      { unfold str_truthy. by apply String.eqb_neq in Hne as ->. }
      split.
      * intros rt [= Hfb]. destruct (Hget _ _ Hfb). split; [done |].
        right. split; [done |]. by exists fb.
      * split.
        -- intros [= Hnone]. split; [done |]. intros fb' [= <-] _.
           by rewrite Hnone.
        -- intros [_ Hfb]. specialize (Hfb fb eq_refl Hne).
           by destruct (dict_get (_routes self) fb).
Qed.

Lemma match_name_result_witness :
  reachable two_routers ∧ routers two_routers !! 1 = Some second_router ∧
  (∀ rt,
     match_name second_router "a" (Some "b.a") = Return (Some rt) →
     rt ∈ routes second_router ∧
     (route.name rt = "a" ∨
      dict_contains "a" (_routes second_router) = false ∧
      ∃ fb, Some "b.a" = Some fb ∧ fb ≠ "" ∧ route.name rt = fb)) ∧
  (match_name second_router "a" (Some "b.a") = Return None
   ↔ dict_contains "a" (_routes second_router) = false ∧
     ∀ fb, Some "b.a" = Some fb → fb ≠ "" →
           dict_contains fb (_routes second_router) = false).
Proof.
  assert (routers two_routers !! 1 = Some second_router) as H1 by reflexivity.
  split; [exact two_routers_reachable |]. split; [exact H1 |].
  exact (match_name_result two_routers 1 second_router "a" (Some "b.a")
           two_routers_reachable H1).
Defined.

(** ** Items, routes and size *)

(** In every reachable state, the items of a router are its routes, in
    registration order, each under its own name; and the size of the router
    is the number of its routes, which is the number of different names
    among them. *)
Theorem items_are_named_routes w k self :
  reachable w → routers w !! k = Some self →
  items self = (λ rt, (route.name rt, rt)) <$> routes self ∧
  __len__ self = length (routes self) ∧
  __len__ self = size (list_to_set (route.name <$> routes self) : gset string).
Proof.
  intros Hreach Hk.
  pose proof (world_inv_names_unique w (reachable_inv w Hreach) k self Hk)
    as Hnd.
  apply reachable_inv in Hreach as [Hr _ _].
  apply Hr in Hk as [_ _ Hnames _ _].
  unfold items, __len__, routes, dict_values in *. split_and!.
  - clear Hnd. induction Hnames as [|[key rt] d Hkv _ IH]; simpl in *; [done |].
    rewrite Hkv. f_equal. exact IH.
  - by rewrite length_fmap.
  - rewrite size_list_to_set by done. by rewrite !length_fmap.
Qed.

Lemma items_are_named_routes_witness :
  reachable two_routers ∧ routers two_routers !! 1 = Some second_router ∧
  items second_router
    = (λ rt, (route.name rt, rt)) <$> routes second_router ∧
  __len__ second_router = length (routes second_router) ∧
  __len__ second_router
    = size (list_to_set (route.name <$> routes second_router) : gset string).
Proof.
  assert (routers two_routers !! 1 = Some second_router) as H1 by reflexivity.
  split; [exact two_routers_reachable |]. split; [exact H1 |].
  exact (items_are_named_routes two_routers 1 second_router
           two_routers_reachable H1).
Defined.
